(** * Emotional AI Assistant front end: a model of [src/App.tsx]

    The React component [App] owns seven pieces of state (the conversation
    log, the input box, the parameter panel toggle, the emotional state, the
    busy flag, the connectivity flag and the six Psi parameters) and talks to
    two HTTP endpoints.  This file embeds the component's handlers and proves
    the properties of the classifier, the parameter store, the emotion
    synchronisation and the message dispatcher.

    Conventions of the embedding:
    - a JavaScript [number] is an IEEE 754 binary64 value, here a primitive
      [float]; a JavaScript string is a sequence of UTF-16 code units;
    - a [Date] is the number of milliseconds it holds;
    - the objects held in React state are never mutated in place by the
      component (every update goes through a setter that installs a new
      value), so they are modelled as values;
    - a handler reads the state of the render that created it; an event is
      handled by the handler of the latest render, so the synchronous part of
      a handler reads the current state, while the part after an [await]
      keeps the values captured when the handler was called;
    - the body of a successful response is taken at the TypeScript type the
      component stores it at; the handlers do not validate it, and a body
      that parses to an object lacking a channel is brought into that type
      by [asEmotionalState] below. *)

From Stdlib Require Import List Bool NArith ZArith String Ascii Lia.
From Stdlib Require Import PrimFloat SpecFloat FloatOps FloatAxioms.
From Stdlib Require Import Sorted.
Import ListNotations.

(** ** JavaScript strings *)

Module JsString.

(** A string is its list of UTF-16 code units. *)
Definition code_unit := N.
Definition t := list code_unit.

(** A literal of the source, written with ASCII characters only. *)
Definition lit (s : string) : t := map N_of_ascii (list_ascii_of_string s).

(** ECMAScript's WhiteSpace and LineTerminator code points, the ones that
    [String.prototype.trim] strips.  All of them lie in the basic plane, so
    each is one code unit. *)
Definition isWhiteSpace (c : code_unit) : bool :=
  ((c =? 0x0009) || (c =? 0x000A) || (c =? 0x000B) || (c =? 0x000C)
   || (c =? 0x000D) || (c =? 0x0020) || (c =? 0x00A0) || (c =? 0x1680)
   || ((0x2000 <=? c) && (c <=? 0x200A))
   || (c =? 0x2028) || (c =? 0x2029) || (c =? 0x202F) || (c =? 0x205F)
   || (c =? 0x3000) || (c =? 0xFEFF))%N.

Fixpoint trimStart (s : t) : t :=
  match s with
  | [] => []
  | c :: rest => if isWhiteSpace c then trimStart rest else s
  end.

Definition trimEnd (s : t) : t := rev (trimStart (rev s)).

(** [s.trim()] *)
Definition trim (s : t) : t := trimEnd (trimStart s).

(** [!s]: a string is falsy exactly when it is empty. *)
Definition falsy (s : t) : bool :=
  match s with [] => true | _ :: _ => false end.

Definition empty : t := [].

End JsString.

Definition jsstring : Type := JsString.t.

(** ** The data of the component *)

(** [interface EmotionalState] *)
Record EmotionalState := mkEmotionalState {
  anger : float;
  sadness : float
}.

(** [interface EmotionalParameters] *)
Record EmotionalParameters := mkEmotionalParameters {
  valence : float;
  arousal : float;
  selectionThreshold : float;
  resolution : float;
  goalDirectedness : float;
  securingRate : float
}.

(** [keyof EmotionalParameters] *)
Inductive ParamKey :=
| Kvalence | Karousal | KselectionThreshold
| Kresolution | KgoalDirectedness | KsecuringRate.

Definition Date := Z.

(** [interface Message]; the optional field is [None] when absent. *)
Record Message := mkMessage {
  text : jsstring;
  isUser : bool;
  timestamp : Date;
  msgEmotionalState : option EmotionalState
}.

(** ** The classifier *)

Section Classifier.

Local Open Scope float_scope.

(** [(raw / 7) * 5] *)
Definition normalize (raw : float) : float := (raw / 7) * 5.

(** [a > b] on numbers: false as soon as one side is NaN. *)
Definition gt (a b : float) : bool := PrimFloat.ltb b a.
Definition lt (a b : float) : bool := PrimFloat.ltb a b.

Definition getEmotionalStateDescription (state : EmotionalState) : jsstring :=
  let normalizedAnger := normalize (anger state) in
  let normalizedSadness := normalize (sadness state) in
  if gt normalizedAnger 4 then JsString.lit "Very Agitated"
  else if gt normalizedAnger 3 then JsString.lit "Frustrated"
  else if gt normalizedSadness 4 then JsString.lit "Very Sad"
  else if gt normalizedSadness 3 then JsString.lit "Melancholic"
  else if lt normalizedAnger 2 && lt normalizedSadness 2
       then JsString.lit "Calm"
  else JsString.lit "Neutral".

(** The six labels of the classifier. *)
Definition labels : list jsstring :=
  map JsString.lit
    ["Very Agitated"; "Frustrated"; "Very Sad"; "Melancholic"; "Calm";
     "Neutral"]%string.

End Classifier.

(** ** The component's state and its setters *)

(** The values held by the [useState] hooks of [App]. *)
Record AppState := mkAppState {
  messages : list Message;
  inputMessage : jsstring;
  showParameters : bool;
  emotionalState : EmotionalState;
  isProcessing : bool;
  backendError : bool;
  parameters : EmotionalParameters
}.

(** What a [catch] clause can receive. *)
Inductive Exn :=
| FetchRejected          (* [fetch] rejected: the server was not reached *)
| BackendServerError     (* [throw new Error('Backend server error')] *)
| JsonRejected.          (* [response.json()] rejected: undecodable body *)

(** The outcome of [await fetch(...)] followed by [response.json()]:
    [body] is [None] when decoding the body fails. *)
Record HttpResponse (A : Type) := mkHttpResponse {
  ok : bool;
  body : option A
}.

Arguments mkHttpResponse {A} ok body.
Arguments ok {A} h.
Arguments body {A} h.

Inductive FetchOutcome (A : Type) :=
| Rejected
| Resolved (response : HttpResponse A).

Arguments Rejected {A}.
Arguments Resolved {A} response.

(** The body of a successful [/send-message] response. *)
Record ReplyData := mkReplyData { reply : jsstring }.

(** The JSON body posted to [/send-message]. *)
Record SendBody := mkSendBody {
  message : jsstring;
  sendParameters : EmotionalParameters
}.

(** A request in flight, with what the suspended handler still holds.  The
    continuation of [calculateEmotions] uses no captured value; that of
    [handleSubmit] uses the [emotionalState] of the render it was called
    in. *)
Record CalcRequest := mkCalcRequest { calcBody : EmotionalParameters }.

Record SendRequest := mkSendRequest {
  sendBody : SendBody;
  capturedEmotionalState : EmotionalState
}.

(** The calls a handler makes, in program order. *)
Inductive Effect :=
| SetIsProcessing (b : bool)
| AppendMessage (m : Message)          (* [setMessages(prev => [...prev, m])] *)
| SetInputMessage (s : jsstring)
| SetBackendError (b : bool)
| SetEmotionalState (data : EmotionalState)
| SetParameter (param : ParamKey) (value : float)
                                       (* [setParameters(prev => ({...prev, [param]: value}))] *)
| SetShowParameters (b : bool)
| FetchCalculateEmotions (req : CalcRequest)
| FetchSendMessage (req : SendRequest)
| ConsoleError (label : jsstring) (error : Exn).

(** The component together with its environment: the requests that were sent
    and not yet answered, oldest first, and the console. *)
Record World := mkWorld {
  app : AppState;
  pendingCalc : list CalcRequest;
  pendingSend : list SendRequest;
  console : list (jsstring * Exn)
}.

(** ** The parameter store *)

Definition getParameter (param : ParamKey) (p : EmotionalParameters) : float :=
  match param with
  | Kvalence => valence p
  | Karousal => arousal p
  | KselectionThreshold => selectionThreshold p
  | Kresolution => resolution p
  | KgoalDirectedness => goalDirectedness p
  | KsecuringRate => securingRate p
  end.

(** [{...prev, [param]: value}] *)
Definition spreadWith (prev : EmotionalParameters) (param : ParamKey)
    (value : float) : EmotionalParameters :=
  match param with
  | Kvalence =>
      mkEmotionalParameters value (arousal prev) (selectionThreshold prev)
        (resolution prev) (goalDirectedness prev) (securingRate prev)
  | Karousal =>
      mkEmotionalParameters (valence prev) value (selectionThreshold prev)
        (resolution prev) (goalDirectedness prev) (securingRate prev)
  | KselectionThreshold =>
      mkEmotionalParameters (valence prev) (arousal prev) value
        (resolution prev) (goalDirectedness prev) (securingRate prev)
  | Kresolution =>
      mkEmotionalParameters (valence prev) (arousal prev)
        (selectionThreshold prev) value (goalDirectedness prev)
        (securingRate prev)
  | KgoalDirectedness =>
      mkEmotionalParameters (valence prev) (arousal prev)
        (selectionThreshold prev) (resolution prev) value (securingRate prev)
  | KsecuringRate =>
      mkEmotionalParameters (valence prev) (arousal prev)
        (selectionThreshold prev) (resolution prev) (goalDirectedness prev)
        value
  end.

(** ** Running effects *)

Definition withApp (f : AppState -> AppState) (w : World) : World :=
  mkWorld (f (app w)) (pendingCalc w) (pendingSend w) (console w).

Definition applyEffect (w : World) (e : Effect) : World :=
  match e with
  | SetIsProcessing b =>
      withApp (fun s => mkAppState (messages s) (inputMessage s)
        (showParameters s) (emotionalState s) b (backendError s)
        (parameters s)) w
  | AppendMessage m =>
      withApp (fun s => mkAppState (messages s ++ [m]) (inputMessage s)
        (showParameters s) (emotionalState s) (isProcessing s)
        (backendError s) (parameters s)) w
  | SetInputMessage i =>
      withApp (fun s => mkAppState (messages s) i (showParameters s)
        (emotionalState s) (isProcessing s) (backendError s)
        (parameters s)) w
  | SetBackendError b =>
      withApp (fun s => mkAppState (messages s) (inputMessage s)
        (showParameters s) (emotionalState s) (isProcessing s) b
        (parameters s)) w
  | SetEmotionalState data =>
      withApp (fun s => mkAppState (messages s) (inputMessage s)
        (showParameters s) data (isProcessing s) (backendError s)
        (parameters s)) w
  | SetParameter param value =>
      withApp (fun s => mkAppState (messages s) (inputMessage s)
        (showParameters s) (emotionalState s) (isProcessing s)
        (backendError s) (spreadWith (parameters s) param value)) w
  | SetShowParameters b =>
      withApp (fun s => mkAppState (messages s) (inputMessage s) b
        (emotionalState s) (isProcessing s) (backendError s)
        (parameters s)) w
  | FetchCalculateEmotions req =>
      mkWorld (app w) (pendingCalc w ++ [req]) (pendingSend w) (console w)
  | FetchSendMessage req =>
      mkWorld (app w) (pendingCalc w) (pendingSend w ++ [req]) (console w)
  | ConsoleError label error =>
      mkWorld (app w) (pendingCalc w) (pendingSend w)
        (console w ++ [(label, error)])
  end.

Definition runEffects (es : list Effect) (w : World) : World :=
  fold_left applyEffect es w.

(** ** The [try] blocks *)

(** What a [try] block computes after its [await]: the effects it goes on to
    make, or the error that is thrown. *)
Definition Try (A : Type) : Type := (Exn + A)%type.

Definition ret {A} (a : A) : Try A := inr a.
Definition throw {A} (e : Exn) : Try A := inl e.
Definition bind {A B} (c : Try A) (k : A -> Try B) : Try B :=
  match c with
  | inl e => inl e
  | inr a => k a
  end.

Notation "x <- c ;; k" := (bind c (fun x => k))
  (at level 61, c at next level, right associativity).

(** [await fetch(...)] *)
Definition awaitFetch {A} (outcome : FetchOutcome A) : Try (HttpResponse A) :=
  match outcome with
  | Rejected => throw FetchRejected
  | Resolved response => ret response
  end.

(** [if (!response.ok) throw new Error('Backend server error')] *)
Definition checkOk {A} (response : HttpResponse A) : Try unit :=
  if negb (ok response) then throw BackendServerError else ret tt.

(** [await response.json()] *)
Definition awaitJson {A} (response : HttpResponse A) : Try A :=
  match body response with
  | None => throw JsonRejected
  | Some data => ret data
  end.

Definition tryCatch (block : Try (list Effect)) (handler : Exn -> list Effect)
    : list Effect :=
  match block with
  | inr effects => effects
  | inl error => handler error
  end.

(** ** The handlers *)

(** [calculateEmotions], up to its [await]. *)
Definition calculateEmotions (parameters : EmotionalParameters) : list Effect :=
  [SetBackendError false;
   FetchCalculateEmotions (mkCalcRequest parameters)].

(** [calculateEmotions], from the [await] on. *)
Definition calculateEmotions_resume (outcome : FetchOutcome EmotionalState)
    : list Effect :=
  tryCatch
    (response <- awaitFetch outcome ;;
     _ <- checkOk response ;;
     data <- awaitJson response ;;
     ret [SetEmotionalState data])
    (fun error =>
       [ConsoleError (JsString.lit "Error calculating emotions:") error;
        SetBackendError true]).

Definition handleParameterChange (param : ParamKey) (value : float)
    : list Effect :=
  [SetParameter param value].

Definition fallbackText : jsstring :=
  JsString.lit
    "I'm currently unable to process messages. Please ensure the backend server is running.".

(** [handleSubmit], up to its [await]; [now] is what [new Date()] returns. *)
Definition handleSubmit (s : AppState) (now : Date) : list Effect :=
  if JsString.falsy (JsString.trim (inputMessage s)) || isProcessing s
  then []
  else
    let newMessage := mkMessage (inputMessage s) true now None in
    [SetIsProcessing true;
     AppendMessage newMessage;
     SetInputMessage JsString.empty;
     SetBackendError false;
     FetchSendMessage
       (mkSendRequest (mkSendBody (inputMessage s) (parameters s))
          (emotionalState s))].

(** [handleSubmit], from the [await] on: the [try] block, its [catch] and the
    [finally] clause.  [emotionalState] is the value the handler captured. *)
Definition handleSubmit_resume (emotionalState : EmotionalState)
    (outcome : FetchOutcome ReplyData) (now : Date) : list Effect :=
  tryCatch
    (response <- awaitFetch outcome ;;
     _ <- checkOk response ;;
     data <- awaitJson response ;;
     ret [AppendMessage (mkMessage (reply data) false now (Some emotionalState))])
    (fun error =>
       [ConsoleError (JsString.lit "Error sending message:") error;
        SetBackendError true;
        AppendMessage (mkMessage fallbackText false now (Some emotionalState))])
  ++ [SetIsProcessing false].

(** [disabled={isProcessing || backendError}] on the input and on the submit
    button. *)
Definition controlsDisabled (s : AppState) : bool :=
  isProcessing s || backendError s.

(** ** Events *)

Inductive Event :=
| EvInput (s : jsstring)                 (* [onChange] of the text input *)
| EvToggleParameters                     (* the Psi Parameters button *)
| EvSlider (param : ParamKey) (value : float)
                                         (* [onChange] of a range input *)
| EvSubmit (now : Date)                  (* [onSubmit] of the form *)
| EvCalculateResponse (i : nat) (outcome : FetchOutcome EmotionalState)
| EvSendResponse (i : nat) (outcome : FetchOutcome ReplyData) (now : Date).

Definition removeAt {A} (i : nat) (l : list A) : list A :=
  firstn i l ++ skipn (S i) l.

Definition answerCalc (i : nat) (w : World) : World :=
  mkWorld (app w) (removeAt i (pendingCalc w)) (pendingSend w) (console w).

Definition answerSend (i : nat) (w : World) : World :=
  mkWorld (app w) (pendingCalc w) (removeAt i (pendingSend w)) (console w).

(** One event.  A slider change runs [handleParameterChange]; the render that
    follows has a new [parameters] object, so the effect that depends on it
    runs [calculateEmotions] with that object.  A response resumes the
    handler that waits for it; [i] is the position of its request among the
    pending ones. *)
Definition step (w : World) (ev : Event) : World :=
  match ev with
  | EvInput s => runEffects [SetInputMessage s] w
  | EvToggleParameters =>
      runEffects [SetShowParameters (negb (showParameters (app w)))] w
  | EvSlider param value =>
      let w' := runEffects (handleParameterChange param value) w in
      runEffects (calculateEmotions (parameters (app w'))) w'
  | EvSubmit now => runEffects (handleSubmit (app w) now) w
  | EvCalculateResponse i outcome =>
      match nth_error (pendingCalc w) i with
      | None => w
      | Some _ => runEffects (calculateEmotions_resume outcome) (answerCalc i w)
      end
  | EvSendResponse i outcome now =>
      match nth_error (pendingSend w) i with
      | None => w
      | Some req =>
          runEffects
            (handleSubmit_resume (capturedEmotionalState req) outcome now)
            (answerSend i w)
      end
  end.

Definition run (evs : list Event) (w : World) : World := fold_left step evs w.

(** The initial values of the hooks.  The decimal literals denote, as in
    JavaScript, the nearest binary64 values. *)
#[local] Set Warnings "-inexact-float".

Definition initialState : AppState :=
  mkAppState [] JsString.empty false (mkEmotionalState 1 1) false false
    (mkEmotionalParameters 4.5 5.0 3.2 4.8 6.0 3.5).

(** The component after its first render: the effect on [parameters] has run
    once. *)
Definition mounted : World :=
  runEffects (calculateEmotions (parameters initialState))
    (mkWorld initialState [] [] []).

(** ** Vocabulary of the statements *)

(** The data a call delivers when it succeeds: the server answered, with a
    success status and a body that decodes. *)
Definition delivered {A} (outcome : FetchOutcome A) : option A :=
  match outcome with
  | Rejected => None
  | Resolved response => if ok response then body response else None
  end.

(** The three ways a call fails. *)
Inductive Failed {A} : FetchOutcome A -> Prop :=
| NetworkError : Failed Rejected
| NonSuccessStatus (b : option A) : Failed (Resolved (mkHttpResponse false b))
| UndecodableBody : Failed (Resolved (mkHttpResponse true None)).

(** A successful response carrying [data]. *)
Definition success {A} (data : A) : FetchOutcome A :=
  Resolved (mkHttpResponse true (Some data)).

(** What [response.json()] returns for a body that parses to an object: each
    channel is a number or is absent.  Nothing in [calculateEmotions] looks
    at the object before it is handed to [setEmotionalState]. *)
Record EmotionsObject := mkEmotionsObject {
  angerField : option float;
  sadnessField : option float
}.

(** How the component reads a channel of the object it holds.  Every read
    of [anger] or [sadness] in the component is the dividend of a division
    by 7 (in [getEmotionalStateDescription] and in the levels and bars of the
    panel), and [undefined / 7] is NaN as [NaN / 7] is: an absent channel
    reads as NaN.  A body that parses cannot hold NaN itself, so the reading
    tells an absent channel from every number a body can carry. *)
Definition channel (field : option float) : float :=
  match field with
  | Some value => value
  | None => nan
  end.

Definition asEmotionalState (object : EmotionsObject) : EmotionalState :=
  mkEmotionalState (channel (angerField object)) (channel (sadnessField object)).

(** The object has both channels. *)
Definition complete (object : EmotionsObject) : bool :=
  match angerField object, sadnessField object with
  | Some _, Some _ => true
  | _, _ => false
  end.

(** The answer with a success status whose body parses to [object]. *)
Definition parsedBody (object : EmotionsObject) : FetchOutcome EmotionalState :=
  success (asEmotionalState object).

(** The text of the assistant entry a reply call ends with. *)
Definition assistantText (outcome : FetchOutcome ReplyData) : jsstring :=
  match delivered outcome with
  | Some data => reply data
  | None => fallbackText
  end.

(** The guard of [handleSubmit]. *)
Definition submitRejected (s : AppState) : bool :=
  JsString.falsy (JsString.trim (inputMessage s)) || isProcessing s.

(** Events that are not the answer to a reply call. *)
Definition notSendResponse (ev : Event) : bool :=
  match ev with
  | EvSendResponse _ _ _ => false
  | _ => true
  end.

(** Events that are not a submission. *)
Definition notSubmit (ev : Event) : bool :=
  match ev with
  | EvSubmit _ => false
  | _ => true
  end.

(** One successful round trip of the dispatcher, with what else happens
    around it: events before the user types the text, the submission, events
    while the call is outstanding, and the reply. *)
Record Round := mkRound {
  roundBefore : list Event;
  roundText : jsstring;
  submittedAt : Date;
  roundDuring : list Event;
  roundReply : jsstring;
  repliedAt : Date
}.

Definition roundEvents (r : Round) : list Event :=
  roundBefore r
  ++ [EvInput (roundText r); EvSubmit (submittedAt r)]
  ++ roundDuring r
  ++ [EvSendResponse 0 (success (mkReplyData (roundReply r))) (repliedAt r)].

Definition roundWellFormed (r : Round) : Prop :=
  forallb notSubmit (roundBefore r) = true /\
  forallb JsString.isWhiteSpace (roundText r) = false /\
  forallb notSendResponse (roundDuring r) = true.

(** The shape of a log of [n] completed rounds: user, assistant, user, ... *)
Fixpoint interleaved (n : nat) : list bool :=
  match n with
  | O => []
  | S k => true :: false :: interleaved k
  end.

(** The dispatcher's invariant: the log is a sequence of completed rounds,
    followed by the user entry of the round in progress when the busy flag is
    set; a reply call is outstanding exactly when the busy flag is set. *)
Definition Serialized (w : World) : Prop :=
  exists n : nat,
    map isUser (messages (app w))
      = interleaved n ++ (if isProcessing (app w) then [true] else [])
    /\ Datatypes.length (pendingSend w)
      = (if isProcessing (app w) then 1 else 0).

(** An entry of the log is stamped as it should be: a user entry has no
    emotional state, an assistant entry has one. *)
Definition stamped (m : Message) : Prop :=
  if isUser m then msgEmotionalState m = None
  else exists snapshot, msgEmotionalState m = Some snapshot.

(** ** Scenarios *)

Module Scenario.

Definition calm : EmotionalState := mkEmotionalState 1 1.
Definition agitated : EmotionalState := mkEmotionalState 7 0.

(** Two recomputations are outstanding, the one of the first render and
    the one of a slider change; the answer to the second arrives first. *)
Definition reversedArrival : list Event :=
  [EvSlider Kvalence 7;
   EvCalculateResponse 1 (success agitated);
   EvCalculateResponse 0 (success calm)].

(** The first recomputation fails. *)
Definition offline : World :=
  run [EvCalculateResponse 0 Rejected] mounted.

(** The user has typed a text when the first recomputation fails. *)
Definition typedThenOffline : World :=
  run [EvInput (JsString.lit "hi"); EvCalculateResponse 0 Rejected] mounted.

(** A submission is outstanding, the emotional state is replaced, and only
    then does the reply call fail. *)
Definition submitted : World :=
  run [EvInput (JsString.lit "hi"); EvSubmit 1000%Z] mounted.

Definition replacedWhileSending : World :=
  run [EvCalculateResponse 0 (success agitated)] submitted.

(** A submission is outstanding. *)
Definition busy : World := submitted.

(** The body of an answer is the object with an anger of 3 and no sadness. *)
Definition lacksSadness : EmotionsObject := mkEmotionsObject (Some 3%float) None.

(** Only blanks have been typed: a space, a tab and a no-break space. *)
Definition blankTyped : World :=
  run [EvInput [0x20; 0x09; 0xA0]%N] mounted.

(** Two round trips, with a slider change, a recomputation and a second,
    rejected submission around them. *)
Definition twoRounds : list Round :=
  [mkRound [EvSlider Kvalence 7] (JsString.lit "hi") 1000%Z
     [EvCalculateResponse 0 (success agitated)] (JsString.lit "hello") 2000%Z;
   mkRound [EvToggleParameters] (JsString.lit "bye") 3000%Z
     [EvInput (JsString.lit "wait"); EvSubmit 3500%Z] (JsString.lit "ciao")
     4000%Z].

End Scenario.

(** What the log shows of an entry: who wrote it, and the text. *)
Definition entry (m : Message) : bool * jsstring := (isUser m, text m).

(** The entries [rounds] should leave in the log, in order. *)
Definition roundEntries (r : Round) : list (bool * jsstring) :=
  [(true, roundText r); (false, roundReply r)].

Definition isAssistant (m : Message) : bool := negb (isUser m).

(** ** The rest of the render *)

(** The property names of [EmotionalParameters], as [Object.entries] lists
    them. *)
Definition keyName (param : ParamKey) : jsstring :=
  JsString.lit
    match param with
    | Kvalence => "valence"
    | Karousal => "arousal"
    | KselectionThreshold => "selectionThreshold"
    | Kresolution => "resolution"
    | KgoalDirectedness => "goalDirectedness"
    | KsecuringRate => "securingRate"
    end.

Definition allKeys : list ParamKey :=
  [Kvalence; Karousal; KselectionThreshold; Kresolution; KgoalDirectedness;
   KsecuringRate].

(** [Object.entries(parameters)] *)
Definition entries (p : EmotionalParameters) : list (jsstring * float) :=
  map (fun param => (keyName param, getParameter param p)) allKeys.

(** The class [[A-Z]] of a regular expression without flags. *)
Definition isCapital (c : JsString.code_unit) : bool :=
  ((0x41 <=? c) && (c <=? 0x5A))%N.

(** [key.replace(/([A-Z])/g, ' $1')]: a space goes before every capital. *)
Definition spaceCapitals (key : jsstring) : jsstring :=
  flat_map (fun c => if isCapital c then [0x20%N; c] else [c]) key.

(** [key.replace(/([A-Z])/g, ' $1').trim()], the name a slider is shown
    under. *)
Definition sliderCaption (key : jsstring) : jsstring :=
  JsString.trim (spaceCapitals key).

(** A code unit that is not white space. *)
Definition visible (c : JsString.code_unit) : bool :=
  negb (JsString.isWhiteSpace c).




(** ** Vocabulary of the further statements *)

(** The instants the clock is read at, in the order of the events: the
    handler of a submission and the continuation of a reply call each
    receive the [new Date()] of their event. *)
Definition eventTimes (evs : list Event) : list Date :=
  flat_map
    (fun ev =>
       match ev with
       | EvSubmit now => [now]
       | EvSendResponse _ _ now => [now]
       | _ => []
       end)
    evs.

(** The outstanding recomputations are answered one after the other, oldest
    first, by a collaborator that computes [f] of the body it receives. *)
Definition answersInOrder (f : EmotionalParameters -> EmotionalState)
    (w : World) : list Event :=
  map (fun req => EvCalculateResponse 0 (success (f (calcBody req))))
    (pendingCalc w).

(** Events that leave the form alone: neither a slider change nor a
    submission. *)
Definition neitherSliderNorSubmit (ev : Event) : bool :=
  match ev with
  | EvSlider _ _ => false
  | EvSubmit _ => false
  | _ => true
  end.

(** Events other than the answer to a recomputation. *)
Definition notCalculateResponse (ev : Event) : bool :=
  match ev with
  | EvCalculateResponse _ _ => false
  | _ => true
  end.

(** Events other than a slider change. *)
Definition notSlider (ev : Event) : bool :=
  match ev with
  | EvSlider _ _ => false
  | _ => true
  end.

(** The error a failed call is reported with: the status is looked at before
    the body is read. *)
Definition reportedError {A} (outcome : FetchOutcome A) : option Exn :=
  match outcome with
  | Rejected => Some FetchRejected
  | Resolved response =>
      if ok response then
        match body response with
        | Some _ => None
        | None => Some JsonRejected
        end
      else Some BackendServerError
  end.

(** * Properties *)

(** ** Strings *)

Module JsStringFacts.
Import JsString.

Lemma trimStart_blank (s : t) :
  trimStart s = [] <-> forallb isWhiteSpace s = true.
Proof.
  induction s as [|c rest IH]; simpl.
  - tauto.
  - destruct (isWhiteSpace c); simpl.
    + exact IH.
    + split; discriminate.
Qed.

Lemma forallb_rev (f : code_unit -> bool) (s : t) :
  forallb f (rev s) = forallb f s.
Proof.
  induction s as [|c rest IH]; simpl; [reflexivity|].
  rewrite forallb_app, IH. simpl.
  rewrite andb_true_r. apply andb_comm.
Qed.

Lemma trimEnd_blank (s : t) :
  trimEnd s = [] <-> forallb isWhiteSpace s = true.
Proof.
  unfold trimEnd. rewrite <- forallb_rev, <- trimStart_blank.
  split; intros H.
  - apply (f_equal (@rev code_unit)) in H.
    rewrite rev_involutive in H. exact H.
  - rewrite H. reflexivity.
Qed.

(** What [trimStart] leaves is empty or starts with a visible code unit. *)
Lemma trimStart_head (s : t) :
  match trimStart s with
  | [] => True
  | c :: _ => isWhiteSpace c = false
  end.
Proof.
  induction s as [|c rest IH]; simpl; [exact I|].
  destruct (isWhiteSpace c) eqn:E; [exact IH | exact E].
Qed.

Lemma trim_blank (s : t) :
  falsy (trim s) = true <-> forallb isWhiteSpace s = true.
Proof.
  unfold trim.
  assert (F : forall u : t, falsy u = true <-> u = []).
  { intros [|c u]; simpl; split; congruence. }
  rewrite F, trimEnd_blank.
  rewrite <- (trimStart_blank s).
  pose proof (trimStart_head s) as H.
  destruct (trimStart s) as [|c rest]; simpl.
  - tauto.
  - rewrite H. simpl. split; discriminate.
Qed.

End JsStringFacts.

(** ** Running effects and events *)

Lemma runEffects_app (es1 es2 : list Effect) (w : World) :
  runEffects (es1 ++ es2) w = runEffects es2 (runEffects es1 w).
Proof. apply fold_left_app. Qed.

Lemma run_app (evs1 evs2 : list Event) (w : World) :
  run (evs1 ++ evs2) w = run evs2 (run evs1 w).
Proof. apply fold_left_app. Qed.

Lemma run_cons (ev : Event) (evs : list Event) (w : World) :
  run (ev :: evs) w = run evs (step w ev).
Proof. reflexivity. Qed.

(** ** The classifier *)

(** C1: [getEmotionalStateDescription] is total, returns one of the six
    labels (which are pairwise distinct), and picks the label by the first
    condition that holds, in the order anger > 4, anger > 3, sadness > 4,
    sadness > 3, both < 2, otherwise, on the channels normalised by
    [(raw / 7) * 5]; anger 7 with sadness 0 is "Very Agitated" and anger 2
    with sadness 2 is "Calm". *)
Theorem getEmotionalStateDescription_first_match :
  forall state : EmotionalState,
    let normalizedAnger := normalize (anger state) in
    let normalizedSadness := normalize (sadness state) in
    let label := getEmotionalStateDescription state in
    In label labels /\
    NoDup labels /\
    (gt normalizedAnger 4 = true -> label = JsString.lit "Very Agitated") /\
    (gt normalizedAnger 4 = false -> gt normalizedAnger 3 = true ->
     label = JsString.lit "Frustrated") /\
    (gt normalizedAnger 4 = false -> gt normalizedAnger 3 = false ->
     gt normalizedSadness 4 = true -> label = JsString.lit "Very Sad") /\
    (gt normalizedAnger 4 = false -> gt normalizedAnger 3 = false ->
     gt normalizedSadness 4 = false -> gt normalizedSadness 3 = true ->
     label = JsString.lit "Melancholic") /\
    (gt normalizedAnger 4 = false -> gt normalizedAnger 3 = false ->
     gt normalizedSadness 4 = false -> gt normalizedSadness 3 = false ->
     lt normalizedAnger 2 = true -> lt normalizedSadness 2 = true ->
     label = JsString.lit "Calm") /\
    (gt normalizedAnger 4 = false -> gt normalizedAnger 3 = false ->
     gt normalizedSadness 4 = false -> gt normalizedSadness 3 = false ->
     lt normalizedAnger 2 && lt normalizedSadness 2 = false ->
     label = JsString.lit "Neutral") /\
    getEmotionalStateDescription (mkEmotionalState 7 0)
      = JsString.lit "Very Agitated" /\
    getEmotionalStateDescription (mkEmotionalState 2 2)
      = JsString.lit "Calm".
Proof.
  intros state normalizedAnger normalizedSadness label.
  assert (D : NoDup labels).
  { unfold labels. simpl.
    repeat (constructor; [simpl; intuition discriminate|]).
    constructor. }
  subst label. unfold getEmotionalStateDescription.
  fold normalizedAnger normalizedSadness.
  destruct (gt normalizedAnger 4), (gt normalizedAnger 3),
    (gt normalizedSadness 4), (gt normalizedSadness 3),
    (lt normalizedAnger 2), (lt normalizedSadness 2); simpl;
    (split; [tauto|]); (split; [exact D|]);
    repeat split; try reflexivity; intros; try discriminate.
Qed.

(** ** The handlers, event by event *)

Section Steps.

Variable w : World.

Lemma step_submit_rejected (now : Date) :
  submitRejected (app w) = true ->
  handleSubmit (app w) now = [] /\ step w (EvSubmit now) = w.
Proof.
  unfold submitRejected, step, handleSubmit. intros ->. split; reflexivity.
Qed.

Lemma step_submit_accepted (now : Date) :
  submitRejected (app w) = false ->
  step w (EvSubmit now) =
    mkWorld
      (mkAppState
         (messages (app w) ++ [mkMessage (inputMessage (app w)) true now None])
         JsString.empty (showParameters (app w)) (emotionalState (app w))
         true false (parameters (app w)))
      (pendingCalc w)
      (pendingSend w
       ++ [mkSendRequest
             (mkSendBody (inputMessage (app w)) (parameters (app w)))
             (emotionalState (app w))])
      (console w).
Proof.
  unfold submitRejected, step, handleSubmit. intros ->. reflexivity.
Qed.

Lemma step_slider (param : ParamKey) (value : float) :
  step w (EvSlider param value) =
    mkWorld
      (mkAppState (messages (app w)) (inputMessage (app w))
         (showParameters (app w)) (emotionalState (app w))
         (isProcessing (app w)) false
         (spreadWith (parameters (app w)) param value))
      (pendingCalc w
       ++ [mkCalcRequest (spreadWith (parameters (app w)) param value)])
      (pendingSend w) (console w).
Proof. reflexivity. Qed.

Lemma step_calc_success (i : nat) (req : CalcRequest) (data : EmotionalState) :
  nth_error (pendingCalc w) i = Some req ->
  step w (EvCalculateResponse i (success data)) =
    mkWorld
      (mkAppState (messages (app w)) (inputMessage (app w))
         (showParameters (app w)) data (isProcessing (app w))
         (backendError (app w)) (parameters (app w)))
      (removeAt i (pendingCalc w)) (pendingSend w) (console w).
Proof. unfold step. intros ->. reflexivity. Qed.

Lemma step_calc_failed (i : nat) (req : CalcRequest)
    (outcome : FetchOutcome EmotionalState) :
  nth_error (pendingCalc w) i = Some req ->
  Failed outcome ->
  exists error,
    step w (EvCalculateResponse i outcome) =
      mkWorld
        (mkAppState (messages (app w)) (inputMessage (app w))
           (showParameters (app w)) (emotionalState (app w))
           (isProcessing (app w)) true (parameters (app w)))
        (removeAt i (pendingCalc w)) (pendingSend w)
        (console w
         ++ [(JsString.lit "Error calculating emotions:", error)]).
Proof.
  unfold step. intros -> F.
  destruct F; eexists; reflexivity.
Qed.

Lemma step_calc_app (i : nat) (outcome : FetchOutcome EmotionalState) :
  let s' := app (step w (EvCalculateResponse i outcome)) in
  messages s' = messages (app w) /\
  inputMessage s' = inputMessage (app w) /\
  isProcessing s' = isProcessing (app w) /\
  parameters s' = parameters (app w) /\
  pendingSend (step w (EvCalculateResponse i outcome)) = pendingSend w.
Proof.
  unfold step.
  destruct (nth_error (pendingCalc w) i); [|repeat split].
  destruct outcome as [|[[|] [data|]]]; repeat split.
Qed.

Lemma step_send_response (i : nat) (req : SendRequest)
    (outcome : FetchOutcome ReplyData) (now : Date) :
  nth_error (pendingSend w) i = Some req ->
  let w' := step w (EvSendResponse i outcome now) in
  messages (app w') =
    messages (app w)
    ++ [mkMessage (assistantText outcome) false now
          (Some (capturedEmotionalState req))] /\
  isProcessing (app w') = false /\
  backendError (app w') =
    match delivered outcome with
    | Some _ => backendError (app w)
    | None => true
    end /\
  emotionalState (app w') = emotionalState (app w) /\
  inputMessage (app w') = inputMessage (app w) /\
  parameters (app w') = parameters (app w) /\
  pendingSend w' = removeAt i (pendingSend w) /\
  pendingCalc w' = pendingCalc w.
Proof.
  unfold step. intros ->.
  destruct outcome as [|[[|] [data|]]]; repeat split.
Qed.

End Steps.

(** ** Invariants of the dispatcher *)

Lemma interleaved_snoc (n : nat) :
  interleaved n ++ [true; false] = interleaved (S n).
Proof.
  induction n as [|n IH]; [reflexivity|].
  change (interleaved (S n)) with (true :: false :: interleaved n).
  simpl. rewrite IH. reflexivity.
Qed.

Lemma submit_accepted_idle (s : AppState) :
  submitRejected s = false ->
  isProcessing s = false /\
  forallb JsString.isWhiteSpace (inputMessage s) = false.
Proof.
  unfold submitRejected. intros H.
  apply orb_false_elim in H. destruct H as [H1 H2]. split; [exact H2|].
  destruct (forallb JsString.isWhiteSpace (inputMessage s)) eqn:E;
    [|reflexivity].
  apply JsStringFacts.trim_blank in E. congruence.
Qed.

Lemma nonblank_accepted (s : AppState) :
  isProcessing s = false ->
  forallb JsString.isWhiteSpace (inputMessage s) = false ->
  submitRejected s = false.
Proof.
  unfold submitRejected. intros -> H. rewrite orb_false_r.
  destruct (JsString.falsy (JsString.trim (inputMessage s))) eqn:E;
    [|reflexivity].
  apply JsStringFacts.trim_blank in E. congruence.
Qed.

Lemma mounted_serialized : Serialized mounted.
Proof. exists 0. split; reflexivity. Qed.

Lemma step_serialized (w : World) (ev : Event) :
  Serialized w -> Serialized (step w ev).
Proof.
  intros [n [Hlog Hpend]].
  destruct ev as [s| |param value|now|i outcome|i outcome now].
  - exists n. split; assumption.
  - exists n. split; assumption.
  - exists n. rewrite step_slider. split; assumption.
  - destruct (submitRejected (app w)) eqn:G.
    + destruct (step_submit_rejected w now G) as [_ ->].
      exists n. split; assumption.
    + rewrite (step_submit_accepted w now G).
      destruct (submit_accepted_idle _ G) as [Idle _].
      rewrite Idle in Hlog, Hpend. rewrite app_nil_r in Hlog.
      exists n. cbn. split.
      * rewrite map_app, Hlog. reflexivity.
      * rewrite length_app, Hpend. reflexivity.
  - destruct (step_calc_app w i outcome) as (M & _ & P & _ & Q).
    exists n. rewrite M, P, Q. split; assumption.
  - destruct (nth_error (pendingSend w) i) as [req|] eqn:E.
    + destruct (step_send_response w i req outcome now E)
        as (M & P & _ & _ & _ & _ & Q & _).
      assert (Busy : isProcessing (app w) = true).
      { destruct (isProcessing (app w)); [reflexivity|].
        destruct (pendingSend w); [destruct i|]; discriminate. }
      rewrite Busy in Hlog, Hpend.
      exists (S n). rewrite M, P, Q. split.
      * rewrite map_app, Hlog, <- app_assoc. cbn [map isUser app].
        rewrite app_nil_r. apply interleaved_snoc.
      * destruct (pendingSend w) as [|r [|r' rest]]; try discriminate.
        destruct i as [|[|i]]; try discriminate. reflexivity.
    + unfold step. rewrite E. exists n. split; assumption.
Qed.

Lemma run_serialized (evs : list Event) (w : World) :
  Serialized w -> Serialized (run evs w).
Proof.
  revert w. induction evs as [|ev evs IH]; intros w H; [exact H|].
  rewrite run_cons. apply IH, step_serialized, H.
Qed.

(** Every event leaves the entries that are in the log as they are, in
    place. *)
Lemma step_log_extends (w : World) (ev : Event) :
  exists suffix, messages (app (step w ev)) = messages (app w) ++ suffix.
Proof.
  destruct ev as [s| |param value|now|i outcome|i outcome now].
  - exists []. cbn. rewrite app_nil_r. reflexivity.
  - exists []. cbn. rewrite app_nil_r. reflexivity.
  - exists []. cbn. rewrite app_nil_r. reflexivity.
  - destruct (submitRejected (app w)) eqn:G.
    + destruct (step_submit_rejected w now G) as [_ ->].
      exists []. rewrite app_nil_r. reflexivity.
    + rewrite (step_submit_accepted w now G). eexists. reflexivity.
  - destruct (step_calc_app w i outcome) as (M & _).
    exists []. rewrite M, app_nil_r. reflexivity.
  - destruct (nth_error (pendingSend w) i) as [req|] eqn:E.
    + destruct (step_send_response w i req outcome now E) as (M & _).
      eexists. exact M.
    + unfold step. rewrite E. exists []. rewrite app_nil_r. reflexivity.
Qed.

Lemma run_log_extends (evs : list Event) (w : World) :
  exists suffix, messages (app (run evs w)) = messages (app w) ++ suffix.
Proof.
  revert w. induction evs as [|ev evs IH]; intros w.
  - exists []. rewrite app_nil_r. reflexivity.
  - rewrite run_cons.
    destruct (IH (step w ev)) as [s2 H2].
    destruct (step_log_extends w ev) as [s1 H1].
    exists (s1 ++ s2). rewrite H2, H1, app_assoc. reflexivity.
Qed.

(** While the busy flag is set, nothing but the answer to the reply call
    touches the log, the flag or the outstanding call. *)
Lemma step_while_busy (w : World) (ev : Event) :
  isProcessing (app w) = true ->
  notSendResponse ev = true ->
  messages (app (step w ev)) = messages (app w) /\
  isProcessing (app (step w ev)) = true /\
  pendingSend (step w ev) = pendingSend w.
Proof.
  intros Busy Q.
  destruct ev as [s| |param value|now|i outcome|i outcome now];
    try discriminate Q.
  - repeat split; assumption.
  - repeat split; assumption.
  - repeat split; assumption.
  - assert (G : submitRejected (app w) = true).
    { unfold submitRejected. rewrite Busy. apply orb_true_r. }
    destruct (step_submit_rejected w now G) as [_ ->].
    repeat split; assumption.
  - destruct (step_calc_app w i outcome) as (M & _ & P & _ & S).
    rewrite M, P, S. repeat split; assumption.
Qed.

Lemma run_while_busy (evs : list Event) (w : World) :
  isProcessing (app w) = true ->
  forallb notSendResponse evs = true ->
  messages (app (run evs w)) = messages (app w) /\
  isProcessing (app (run evs w)) = true /\
  pendingSend (run evs w) = pendingSend w.
Proof.
  revert w. induction evs as [|ev evs IH]; intros w Busy Q.
  - repeat split; assumption.
  - simpl in Q. apply andb_prop in Q. destruct Q as [Q1 Q2].
    destruct (step_while_busy w ev Busy Q1) as (M & P & S).
    rewrite run_cons.
    destruct (IH (step w ev) P Q2) as (M' & P' & S').
    rewrite M', P', S', M, S. repeat split.
Qed.

(** While the dispatcher is idle, nothing but a submission touches the log,
    the flag or the (empty) set of outstanding reply calls. *)
Lemma step_while_idle (w : World) (ev : Event) :
  isProcessing (app w) = false ->
  pendingSend w = [] ->
  notSubmit ev = true ->
  messages (app (step w ev)) = messages (app w) /\
  isProcessing (app (step w ev)) = false /\
  pendingSend (step w ev) = [].
Proof.
  intros Idle Empty Q.
  destruct ev as [s| |param value|now|i outcome|i outcome now];
    try discriminate Q.
  - repeat split; assumption.
  - repeat split; assumption.
  - repeat split; assumption.
  - destruct (step_calc_app w i outcome) as (M & _ & P & _ & S).
    rewrite M, P, S. repeat split; assumption.
  - unfold step. rewrite Empty. destruct i; repeat split; assumption.
Qed.

Lemma run_while_idle (evs : list Event) (w : World) :
  isProcessing (app w) = false ->
  pendingSend w = [] ->
  forallb notSubmit evs = true ->
  messages (app (run evs w)) = messages (app w) /\
  isProcessing (app (run evs w)) = false /\
  pendingSend (run evs w) = [].
Proof.
  revert w. induction evs as [|ev evs IH]; intros w Idle Empty Q.
  - repeat split; assumption.
  - simpl in Q. apply andb_prop in Q. destruct Q as [Q1 Q2].
    destruct (step_while_idle w ev Idle Empty Q1) as (M & P & S).
    rewrite run_cons.
    destruct (IH (step w ev) P S Q2) as (M' & P' & S').
    rewrite M', P', S', M. repeat split.
Qed.

Lemma serialized_idle (w : World) :
  Serialized w -> isProcessing (app w) = false -> pendingSend w = [].
Proof.
  intros [n [_ L]] Idle. rewrite Idle in L.
  destruct (pendingSend w); [reflexivity | discriminate].
Qed.

(** One turn of the dispatcher: an accepted submission, whatever happens
    while the call is outstanding, and the outcome of the call. *)
Lemma turn (w : World) (now : Date) (during : list Event)
    (outcome : FetchOutcome ReplyData) (now' : Date) :
  pendingSend w = [] ->
  submitRejected (app w) = false ->
  forallb notSendResponse during = true ->
  let w' := run (EvSubmit now :: during ++ [EvSendResponse 0 outcome now']) w in
  messages (app w') =
    messages (app w)
    ++ [mkMessage (inputMessage (app w)) true now None;
        mkMessage (assistantText outcome) false now'
          (Some (emotionalState (app w)))] /\
  isProcessing (app w') = false /\
  pendingSend w' = [] /\
  backendError (app w') =
    match delivered outcome with
    | Some _ => backendError (app (run (EvSubmit now :: during) w))
    | None => true
    end.
Proof.
  intros Empty G Q w'. subst w'.
  change (EvSubmit now :: during ++ [EvSendResponse 0 outcome now'])
    with ((EvSubmit now :: during) ++ [EvSendResponse 0 outcome now']).
  rewrite run_app.
  set (w2 := run (EvSubmit now :: during) w).
  assert (H2 : messages (app w2)
               = messages (app w)
                 ++ [mkMessage (inputMessage (app w)) true now None]
             /\ pendingSend w2
               = [mkSendRequest
                    (mkSendBody (inputMessage (app w)) (parameters (app w)))
                    (emotionalState (app w))]).
  { subst w2. rewrite run_cons.
    assert (Busy : isProcessing (app (step w (EvSubmit now))) = true)
      by (rewrite (step_submit_accepted w now G); reflexivity).
    destruct (run_while_busy during _ Busy Q) as (M & _ & S).
    rewrite M, S, (step_submit_accepted w now G). cbn.
    rewrite Empty. split; reflexivity. }
  destruct H2 as [M2 S2].
  assert (E : nth_error (pendingSend w2) 0
              = Some (mkSendRequest
                        (mkSendBody (inputMessage (app w)) (parameters (app w)))
                        (emotionalState (app w))))
    by (rewrite S2; reflexivity).
  cbn [run fold_left].
  destruct (step_send_response w2 0 _ outcome now' E)
    as (M & P & B & _ & _ & _ & S & _).
  rewrite M, P, B, S, M2, S2, <- app_assoc. repeat split.
Qed.

(** ** Emotion synchronisation *)

Lemma floats_differ (a b : float) :
  PrimFloat.eqb a b = false -> PrimFloat.eqb a a = true -> a <> b.
Proof. intros H1 H2 E. rewrite <- E in H1. congruence. Qed.

Lemma calm_is_not_agitated : Scenario.calm <> Scenario.agitated.
Proof.
  intros E. apply (f_equal anger) in E. revert E.
  apply floats_differ; reflexivity.
Qed.

(** C2, as the code has it not: no sequence number is attached to a request
    and no result is discarded.  With two recomputations outstanding and the
    answer to the later one arriving first, the final emotional state is the
    result of the earlier request, not that of the later one. *)
Lemma stale_result_overwrites_fresh_one :
  map calcBody (pendingCalc (run [EvSlider Kvalence 7] mounted))
    = [parameters initialState;
       spreadWith (parameters initialState) Kvalence 7] /\
  emotionalState (app (run Scenario.reversedArrival mounted)) = Scenario.calm /\
  Scenario.calm <> Scenario.agitated.
Proof.
  split; [reflexivity|]. split; [reflexivity|]. exact calm_is_not_agitated.
Qed.

(** C2, amended: every successful response replaces the emotional state when
    it arrives, whatever the order of issue; with two requests outstanding
    the final state is the result of the response that arrives last (that of
    the earlier request when the later one is answered first, that of the
    later request when they are answered in order of issue). *)
Theorem calculateEmotions_last_arrival_wins (w : World)
    (earlier later : EmotionalState) :
  2 <= Datatypes.length (pendingCalc w) ->
  emotionalState
    (app (run [EvCalculateResponse 1 (success later);
               EvCalculateResponse 0 (success earlier)] w)) = earlier /\
  emotionalState
    (app (run [EvCalculateResponse 0 (success earlier);
               EvCalculateResponse 0 (success later)] w)) = later /\
  (forall (i : nat) (data : EmotionalState),
      i < Datatypes.length (pendingCalc w) ->
      emotionalState (app (step w (EvCalculateResponse i (success data))))
        = data).
Proof.
  intros L.
  destruct (pendingCalc w) as [|r1 [|r2 rest]] eqn:P;
    [simpl in L; lia | simpl in L; lia | clear L].
  split; [|split].
  - cbn [run fold_left].
    assert (E1 : nth_error (pendingCalc w) 1 = Some r2)
      by (rewrite P; reflexivity).
    rewrite (step_calc_success w 1 r2 later E1).
    unfold step at 1. cbn [pendingCalc]. rewrite P. reflexivity.
  - cbn [run fold_left].
    assert (E1 : nth_error (pendingCalc w) 0 = Some r1)
      by (rewrite P; reflexivity).
    rewrite (step_calc_success w 0 r1 earlier E1).
    unfold step at 1. cbn [pendingCalc]. rewrite P. reflexivity.
  - intros i data Hi.
    destruct (nth_error (pendingCalc w) i) as [req|] eqn:E.
    + rewrite (step_calc_success w i req data E). reflexivity.
    + apply nth_error_None in E. rewrite P in E. lia.
Qed.

Lemma calculateEmotions_last_arrival_wins_witness :
  2 <= Datatypes.length (pendingCalc (run [EvSlider Kvalence 7] mounted)) /\
  emotionalState
    (app (run [EvCalculateResponse 1 (success Scenario.agitated);
               EvCalculateResponse 0 (success Scenario.calm)]
            (run [EvSlider Kvalence 7] mounted))) = Scenario.calm.
Proof.
  assert (L : 2 <= Datatypes.length
                     (pendingCalc (run [EvSlider Kvalence 7] mounted)))
    by (simpl; lia).
  split; [exact L|].
  exact (proj1 (calculateEmotions_last_arrival_wins
                  (run [EvSlider Kvalence 7] mounted)
                  Scenario.calm Scenario.agitated L)).
Defined.

(** C3, as the code has it not: a body that parses but is incomplete is not
    treated as a failure.  The first recomputation is answered with a success
    status and an object that has an anger and no sadness: the object is
    installed, so the emotional state is no longer the one from before the
    call and its sadness reads as NaN, and the connectivity flag is not
    set. *)
Lemma incomplete_body_is_installed :
  complete Scenario.lacksSadness = false /\
  emotionalState
    (app (step mounted
            (EvCalculateResponse 0 (parsedBody Scenario.lacksSadness))))
    = mkEmotionalState 3 nan /\
  emotionalState
    (app (step mounted
            (EvCalculateResponse 0 (parsedBody Scenario.lacksSadness))))
    <> emotionalState (app mounted) /\
  backendError
    (app (step mounted
            (EvCalculateResponse 0 (parsedBody Scenario.lacksSadness))))
    = false.
Proof.
  split; [reflexivity|]. split; [reflexivity|]. split; [|reflexivity].
  intros E. apply (f_equal anger) in E. revert E.
  apply floats_differ; reflexivity.
Qed.

(** C3, amended: when a call to [calculateEmotions] fails by one of the
    errors the handler catches (the server is not reached, the status is not
    a success, or the body does not parse), the connectivity flag ends up set
    and the emotional state is the one from before the call; nothing else of
    the component changes either.  A body that parses is not validated: with
    a success status the object received is installed as it is, complete or
    not, the connectivity flag and the console are left as they were, and a
    channel the object lacks reads as NaN from then on. *)
Theorem calculateEmotions_failure_or_unvalidated_body (w : World) (i : nat) :
  i < Datatypes.length (pendingCalc w) ->
  (forall outcome : FetchOutcome EmotionalState,
      Failed outcome ->
      let w' := step w (EvCalculateResponse i outcome) in
      backendError (app w') = true /\
      emotionalState (app w') = emotionalState (app w) /\
      messages (app w') = messages (app w) /\
      parameters (app w') = parameters (app w) /\
      isProcessing (app w') = isProcessing (app w)) /\
  (forall object : EmotionsObject,
      let w' := step w (EvCalculateResponse i (parsedBody object)) in
      emotionalState (app w') = asEmotionalState object /\
      backendError (app w') = backendError (app w) /\
      console w' = console w) /\
  (forall object : EmotionsObject,
      complete object = false ->
      is_nan (anger (asEmotionalState object))
      || is_nan (sadness (asEmotionalState object)) = true).
Proof.
  intros Hi.
  destruct (nth_error (pendingCalc w) i) as [req|] eqn:E;
    [|apply nth_error_None in E; lia].
  repeat apply conj.
  - intros outcome F.
    destruct (step_calc_failed w i req outcome E F) as [error H].
    cbv zeta. rewrite H. repeat split.
  - intros object. cbv zeta. unfold parsedBody.
    rewrite (step_calc_success w i req (asEmotionalState object) E).
    repeat split.
  - intros [[a|] [s|]] C; try discriminate C; cbn.
    + apply orb_true_r.
    + reflexivity.
    + reflexivity.
Qed.

Lemma calculateEmotions_failure_or_unvalidated_body_witness :
  0 < Datatypes.length (pendingCalc mounted) /\
  (backendError
     (app (step mounted
             (EvCalculateResponse 0 (Resolved (mkHttpResponse true None)))))
     = true /\
   emotionalState
     (app (step mounted
             (EvCalculateResponse 0 (Resolved (mkHttpResponse true None)))))
     = emotionalState (app mounted)) /\
  is_nan (anger (asEmotionalState Scenario.lacksSadness))
  || is_nan (sadness (asEmotionalState Scenario.lacksSadness)) = true.
Proof.
  assert (L : 0 < Datatypes.length (pendingCalc mounted)) by (simpl; lia).
  pose proof (calculateEmotions_failure_or_unvalidated_body mounted 0 L)
    as (F & _ & N).
  split; [exact L|]. split.
  - pose proof (F (Resolved (mkHttpResponse true None)) UndecodableBody) as H.
    split; [exact (proj1 H) | exact (proj1 (proj2 H))].
  - exact (N Scenario.lacksSadness eq_refl).
Defined.

(** ** The connectivity flag *)

Lemma failed_not_delivered {A} (outcome : FetchOutcome A) :
  Failed outcome -> delivered outcome = None.
Proof. intros F. destruct F; reflexivity. Qed.

(** C4, as the code has it not: the connectivity flag, set by a failed
    recomputation, is cleared by the mere issue of the next request, while
    that request is still outstanding and no call has succeeded. *)
Lemma backendError_cleared_before_any_success :
  backendError (app Scenario.offline) = true /\
  pendingCalc Scenario.offline = [] /\
  backendError (app (step Scenario.offline (EvSlider Kvalence 4))) = false /\
  Datatypes.length (pendingCalc (step Scenario.offline (EvSlider Kvalence 4)))
    = 1.
Proof. repeat split. Qed.

(** C4, amended: the connectivity flag is cleared at the moment a request is
    issued, by [calculateEmotions] on every parameter change and by
    [handleSubmit] when it accepts a submission, with the request still
    outstanding; a successful completion replaces the emotional state (or
    appends the reply) and leaves the flag as it is; a failed completion sets
    it. *)
Theorem backendError_cleared_at_issue (w : World) :
  (forall param value,
      let w' := step w (EvSlider param value) in
      backendError (app w') = false /\
      pendingCalc w'
        = pendingCalc w
          ++ [mkCalcRequest (spreadWith (parameters (app w)) param value)]) /\
  (forall now,
      submitRejected (app w) = false ->
      let w' := step w (EvSubmit now) in
      backendError (app w') = false /\
      Datatypes.length (pendingSend w')
        = S (Datatypes.length (pendingSend w))) /\
  (forall i data,
      i < Datatypes.length (pendingCalc w) ->
      let w' := step w (EvCalculateResponse i (success data)) in
      backendError (app w') = backendError (app w) /\
      emotionalState (app w') = data) /\
  (forall i data now,
      i < Datatypes.length (pendingSend w) ->
      let w' := step w (EvSendResponse i (success data) now) in
      backendError (app w') = backendError (app w)) /\
  (forall i outcome,
      i < Datatypes.length (pendingCalc w) -> Failed outcome ->
      backendError (app (step w (EvCalculateResponse i outcome))) = true) /\
  (forall i outcome now,
      i < Datatypes.length (pendingSend w) -> Failed outcome ->
      backendError (app (step w (EvSendResponse i outcome now))) = true).
Proof.
  repeat apply conj.
  - intros param value w'. subst w'. rewrite step_slider. split; reflexivity.
  - intros now G w'. subst w'. rewrite (step_submit_accepted w now G).
    cbn. rewrite length_app. cbn. split; [reflexivity | lia].
  - intros i data Hi w'. subst w'.
    destruct (nth_error (pendingCalc w) i) as [req|] eqn:E.
    + rewrite (step_calc_success w i req data E). split; reflexivity.
    + apply nth_error_None in E. lia.
  - intros i data now Hi w'. subst w'.
    destruct (nth_error (pendingSend w) i) as [req|] eqn:E.
    + destruct (step_send_response w i req (success data) now E)
        as (_ & _ & B & _).
      exact B.
    + apply nth_error_None in E. lia.
  - intros i outcome Hi F.
    destruct (nth_error (pendingCalc w) i) as [req|] eqn:E.
    + destruct (step_calc_failed w i req outcome E F) as [error ->].
      reflexivity.
    + apply nth_error_None in E. lia.
  - intros i outcome now Hi F.
    destruct (nth_error (pendingSend w) i) as [req|] eqn:E.
    + destruct (step_send_response w i req outcome now E)
        as (_ & _ & B & _).
      rewrite B, (failed_not_delivered outcome F). reflexivity.
    + apply nth_error_None in E. lia.
Qed.

Lemma backendError_cleared_at_issue_witness :
  submitRejected (app Scenario.typedThenOffline) = false /\
  backendError (app Scenario.typedThenOffline) = true /\
  backendError (app (step Scenario.typedThenOffline (EvSubmit 1000%Z)))
    = false.
Proof.
  assert (G : submitRejected (app Scenario.typedThenOffline) = false)
    by reflexivity.
  split; [exact G|]. split; [reflexivity|].
  exact (proj1 (proj1 (proj2
           (backendError_cleared_at_issue Scenario.typedThenOffline))
           1000%Z G)).
Defined.

(** ** The dispatcher *)

Lemma run_mounted_idle (history : list Event) :
  isProcessing (app (run history mounted)) = false ->
  pendingSend (run history mounted) = [].
Proof.
  apply serialized_idle, run_serialized, mounted_serialized.
Qed.

(** C5, as the code has it not: the emotional state attached to the fallback
    entry is not the one current when the call fails.  The state is replaced
    while the submission is outstanding; the entry appended on failure still
    carries the state from the time of the submission. *)
Lemma fallback_snapshot_is_not_current :
  emotionalState (app Scenario.replacedWhileSending) = Scenario.agitated /\
  messages
    (app (step Scenario.replacedWhileSending (EvSendResponse 0 Rejected 2000%Z)))
    = [mkMessage (JsString.lit "hi") true 1000%Z None;
       mkMessage fallbackText false 2000%Z (Some Scenario.calm)] /\
  Scenario.calm <> Scenario.agitated.
Proof.
  split; [reflexivity|]. split; [reflexivity|]. exact calm_is_not_agitated.
Qed.

(** C5, amended: when the reply call of an accepted submission fails, the
    connectivity flag is set and exactly one assistant entry is appended
    after the user's entry, with the fixed fallback text and the emotional
    state that was current when the submission was accepted, whatever
    happened to the emotional state while the call was outstanding; the
    user's entry stays in the log and the busy flag is cleared. *)
Theorem handleSubmit_failure_appends_fallback (history : list Event)
    (now : Date) (during : list Event) (outcome : FetchOutcome ReplyData)
    (now' : Date) :
  let w := run history mounted in
  submitRejected (app w) = false ->
  forallb notSendResponse during = true ->
  Failed outcome ->
  let w' := run (EvSubmit now :: during ++ [EvSendResponse 0 outcome now']) w in
  messages (app w') =
    messages (app w)
    ++ [mkMessage (inputMessage (app w)) true now None;
        mkMessage
          (JsString.lit
             "I'm currently unable to process messages. Please ensure the backend server is running.")
          false now' (Some (emotionalState (app w)))] /\
  backendError (app w') = true /\
  isProcessing (app w') = false.
Proof.
  intros w G Q F w'.
  destruct (submit_accepted_idle _ G) as [Idle _].
  pose proof (run_mounted_idle history Idle) as Empty.
  destruct (turn w now during outcome now' Empty G Q) as (M & P & _ & B).
  fold w' in M, P, B.
  unfold assistantText in M.
  rewrite (failed_not_delivered outcome F) in M, B.
  repeat split; assumption.
Qed.

Lemma handleSubmit_failure_appends_fallback_witness :
  messages
    (app (run [EvSubmit 1000%Z; EvCalculateResponse 0 (success Scenario.agitated);
               EvSendResponse 0 Rejected 2000%Z]
            (run [EvInput (JsString.lit "hi")] mounted)))
    = [mkMessage (JsString.lit "hi") true 1000%Z None;
       mkMessage fallbackText false 2000%Z (Some Scenario.calm)].
Proof.
  exact (proj1 (handleSubmit_failure_appends_fallback
                  [EvInput (JsString.lit "hi")] 1000%Z
                  [EvCalculateResponse 0 (success Scenario.agitated)]
                  Rejected 2000%Z eq_refl eq_refl NetworkError)).
Defined.

(** C6, as the code has it not: [handleSubmit] does not look at the
    connectivity flag.  With the flag set, the busy flag clear and a text
    typed, a submission is accepted: the log grows and a request is sent. *)
Lemma submission_accepted_while_backendError :
  backendError (app Scenario.typedThenOffline) = true /\
  isProcessing (app Scenario.typedThenOffline) = false /\
  messages (app Scenario.typedThenOffline) = [] /\
  pendingSend Scenario.typedThenOffline = [] /\
  messages (app (step Scenario.typedThenOffline (EvSubmit 1000%Z)))
    = [mkMessage (JsString.lit "hi") true 1000%Z None] /\
  Datatypes.length
    (pendingSend (step Scenario.typedThenOffline (EvSubmit 1000%Z))) = 1.
Proof. repeat split. Qed.

(** C6, amended: a submission attempted while the busy flag is set is a
    complete no-op: the handler makes no call at all (no setter, no request,
    nothing logged) and the component and its outstanding requests are as
    before.  The handler does not test the connectivity flag and there is no
    forced-retry flag (what it does is the same whatever the flag is): while
    the connectivity flag is set, what the component does is render the text
    input and the submit button disabled. *)
Theorem handleSubmit_busy_noop (w : World) (now : Date) :
  isProcessing (app w) = true ->
  handleSubmit (app w) now = [] /\
  step w (EvSubmit now) = w /\
  controlsDisabled (app w) = true /\
  (forall s : AppState, backendError s = true -> controlsDisabled s = true) /\
  (forall (s : AppState) (flag : bool),
      handleSubmit
        (mkAppState (messages s) (inputMessage s) (showParameters s)
           (emotionalState s) (isProcessing s) flag (parameters s)) now
        = handleSubmit s now).
Proof.
  intros Busy.
  assert (G : submitRejected (app w) = true).
  { unfold submitRejected. rewrite Busy. apply orb_true_r. }
  destruct (step_submit_rejected w now G) as [H1 H2].
  repeat apply conj; try assumption.
  - unfold controlsDisabled. rewrite Busy. reflexivity.
  - intros s B. unfold controlsDisabled. rewrite B. apply orb_true_r.
  - intros s flag. reflexivity.
Qed.

Lemma handleSubmit_busy_noop_witness :
  isProcessing (app Scenario.busy) = true /\
  step (run [EvInput (JsString.lit "again")] Scenario.busy) (EvSubmit 1500%Z)
    = run [EvInput (JsString.lit "again")] Scenario.busy.
Proof.
  split; [reflexivity|].
  exact (proj1 (proj2 (handleSubmit_busy_noop
                         (run [EvInput (JsString.lit "again")] Scenario.busy)
                         1500%Z eq_refl))).
Defined.

(** ** The conversation log *)

Lemma round_log (r : Round) (w : World) :
  isProcessing (app w) = false ->
  pendingSend w = [] ->
  roundWellFormed r ->
  let w' := run (roundEvents r) w in
  map entry (messages (app w'))
    = map entry (messages (app w)) ++ roundEntries r /\
  isProcessing (app w') = false /\
  pendingSend w' = [].
Proof.
  intros Idle Empty (Q1 & T & Q2) w'. subst w'. unfold roundEvents.
  rewrite run_app.
  destruct (run_while_idle (roundBefore r) w Idle Empty Q1) as (M1 & P1 & S1).
  set (w1 := run (roundBefore r) w) in *.
  change ([EvInput (roundText r); EvSubmit (submittedAt r)] ++ roundDuring r
          ++ [EvSendResponse 0 (success (mkReplyData (roundReply r)))
                (repliedAt r)])
    with (EvInput (roundText r)
          :: EvSubmit (submittedAt r)
             :: roundDuring r
                ++ [EvSendResponse 0 (success (mkReplyData (roundReply r)))
                      (repliedAt r)]).
  rewrite run_cons.
  set (w2 := step w1 (EvInput (roundText r))).
  assert (G : submitRejected (app w2) = false)
    by (apply nonblank_accepted; [exact P1 | exact T]).
  destruct (turn w2 (submittedAt r) (roundDuring r)
              (success (mkReplyData (roundReply r))) (repliedAt r) S1 G Q2)
    as (M & P & S & _).
  rewrite M, P, S. split; [|split; reflexivity].
  rewrite map_app. cbn. rewrite M1. reflexivity.
Qed.

Lemma rounds_log (rounds : list Round) (w : World) :
  isProcessing (app w) = false ->
  pendingSend w = [] ->
  Forall roundWellFormed rounds ->
  map entry (messages (app (run (flat_map roundEvents rounds) w)))
    = map entry (messages (app w)) ++ flat_map roundEntries rounds.
Proof.
  revert w. induction rounds as [|r rounds IH]; intros w Idle Empty WF.
  - cbn. rewrite app_nil_r. reflexivity.
  - inversion WF as [|? ? Hr Hrest]; subst.
    cbn [flat_map]. rewrite run_app.
    destruct (round_log r w Idle Empty Hr) as (M & P & S).
    rewrite (IH _ P S Hrest), M, <- app_assoc. reflexivity.
Qed.

Lemma count_users (rounds : list Round) (log : list Message) :
  map entry log = flat_map roundEntries rounds ->
  Datatypes.length (filter isUser log) = Datatypes.length rounds /\
  Datatypes.length (filter isAssistant log) = Datatypes.length rounds.
Proof.
  revert log. induction rounds as [|r rounds IH]; intros log H.
  - destruct log; [split; reflexivity | discriminate].
  - destruct log as [|u [|a log]]; try discriminate.
    cbn in H. injection H as Hu _ Ha _ Hrest.
    destruct (IH log Hrest) as [IH1 IH2].
    unfold isAssistant in *. cbn. rewrite Hu, Ha. cbn.
    rewrite IH1, IH2. split; reflexivity.
Qed.

(** C7: an accepted submission appends the user's entry before the reply
    call is made (the request is the last call of the handler's first part);
    after [N] successful round trips, with anything else happening around
    them, the log holds the [N] user texts and the [N] replies, interleaved
    user then assistant in the order of submission, [N] entries of each
    kind; on any sequence of events the log alternates user and assistant
    entries; and an event only ever appends to the log. *)
Theorem conversation_log_interleaved (rounds : list Round) :
  Forall roundWellFormed rounds ->
  let log := messages (app (run (flat_map roundEvents rounds) mounted)) in
  map entry log = flat_map roundEntries rounds /\
  Datatypes.length (filter isUser log) = Datatypes.length rounds /\
  Datatypes.length (filter isAssistant log) = Datatypes.length rounds /\
  (forall (s : AppState) (now : Date),
      submitRejected s = false ->
      exists before after request,
        handleSubmit s now
          = before
            ++ [AppendMessage (mkMessage (inputMessage s) true now None)]
            ++ after ++ [FetchSendMessage request]) /\
  (forall history : list Event, Serialized (run history mounted)) /\
  (forall (w : World) (ev : Event),
      exists suffix,
        messages (app (step w ev)) = messages (app w) ++ suffix).
Proof.
  intros WF log.
  assert (H : map entry log = flat_map roundEntries rounds).
  { subst log. rewrite (rounds_log rounds mounted eq_refl eq_refl WF).
    reflexivity. }
  destruct (count_users rounds log H) as [C1 C2].
  repeat apply conj; try assumption.
  - intros s now G. unfold handleSubmit. fold (submitRejected s). rewrite G.
    exists [SetIsProcessing true],
      [SetInputMessage JsString.empty; SetBackendError false].
    eexists. reflexivity.
  - intros history. apply run_serialized, mounted_serialized.
  - apply step_log_extends.
Qed.

Lemma conversation_log_interleaved_witness :
  Forall roundWellFormed Scenario.twoRounds /\
  map entry
    (messages (app (run (flat_map roundEvents Scenario.twoRounds) mounted)))
    = [(true, JsString.lit "hi"); (false, JsString.lit "hello");
       (true, JsString.lit "bye"); (false, JsString.lit "ciao")].
Proof.
  assert (WF : Forall roundWellFormed Scenario.twoRounds).
  { repeat constructor. }
  split; [exact WF|].
  exact (proj1 (conversation_log_interleaved Scenario.twoRounds WF)).
Defined.

(** ** The parameter store *)

(** C8: [handleParameterChange param value] is one call that replaces the
    parameter record by one whose field [param] is [value], whatever the
    value (nothing is clamped to the slider's range), and whose five other
    fields are as before; the rest of the component is untouched, and the
    recomputation that follows posts exactly the new record. *)
Theorem handleParameterChange_replaces_one_field (w : World)
    (param : ParamKey) (value : float) :
  let w' := runEffects (handleParameterChange param value) w in
  getParameter param (parameters (app w')) = value /\
  (forall other : ParamKey,
      other <> param ->
      getParameter other (parameters (app w'))
        = getParameter other (parameters (app w))) /\
  handleParameterChange param value = [SetParameter param value] /\
  (messages (app w'), inputMessage (app w'), showParameters (app w'),
   emotionalState (app w'), isProcessing (app w'), backendError (app w'))
    = (messages (app w), inputMessage (app w), showParameters (app w),
       emotionalState (app w), isProcessing (app w), backendError (app w)) /\
  pendingCalc (step w (EvSlider param value))
    = pendingCalc w ++ [mkCalcRequest (parameters (app w'))] /\
  getParameter Karousal
    (parameters (app (runEffects (handleParameterChange Karousal 100) w)))
    = 100%float.
Proof.
  intros w'. subst w'. repeat apply conj.
  - destruct param; reflexivity.
  - intros other D. destruct param, other; try reflexivity; congruence.
  - reflexivity.
  - reflexivity.
  - reflexivity.
  - reflexivity.
Qed.

(** ** Snapshots *)

Lemma step_log_cases (w : World) (ev : Event) :
  messages (app (step w ev)) = messages (app w) \/
  (exists m, stamped m /\ messages (app (step w ev)) = messages (app w) ++ [m]).
Proof.
  destruct ev as [s| |param value|now|i outcome|i outcome now].
  - left. reflexivity.
  - left. reflexivity.
  - left. reflexivity.
  - destruct (submitRejected (app w)) eqn:G.
    + destruct (step_submit_rejected w now G) as [_ ->]. left. reflexivity.
    + rewrite (step_submit_accepted w now G). right.
      eexists. split; [|reflexivity]. reflexivity.
  - destruct (step_calc_app w i outcome) as (M & _). left. exact M.
  - destruct (nth_error (pendingSend w) i) as [req|] eqn:E.
    + destruct (step_send_response w i req outcome now E) as (M & _).
      right. eexists. split; [|exact M].
      unfold stamped. cbn. eexists. reflexivity.
    + unfold step. rewrite E. left. reflexivity.
Qed.

Lemma run_stamped (evs : list Event) (w : World) :
  Forall stamped (messages (app w)) ->
  Forall stamped (messages (app (run evs w))).
Proof.
  revert w. induction evs as [|ev evs IH]; intros w H; [exact H|].
  rewrite run_cons. apply IH.
  destruct (step_log_cases w ev) as [-> | (m & Hm & ->)]; [exact H|].
  apply Forall_app. split; [exact H | repeat constructor; exact Hm].
Qed.

(** C9: a user entry carries no emotional state; the assistant entry of a
    submission carries the emotional state that was current when the
    submission was dispatched; and whatever happens while the call is
    outstanding or afterwards (replacements of the live emotional state
    included), both entries stay in place as they were written, and every
    entry of the log is stamped as its kind requires. *)
Theorem snapshot_fixed_at_dispatch (history : list Event) (now : Date)
    (during : list Event) (outcome : FetchOutcome ReplyData) (now' : Date)
    (later : list Event) :
  let w := run history mounted in
  submitRejected (app w) = false ->
  forallb notSendResponse during = true ->
  let w' := run (EvSubmit now :: during ++ [EvSendResponse 0 outcome now']) w in
  let log := messages (app (run later w')) in
  let n := Datatypes.length (messages (app w)) in
  nth_error log n = Some (mkMessage (inputMessage (app w)) true now None) /\
  nth_error log (S n)
    = Some (mkMessage (assistantText outcome) false now'
              (Some (emotionalState (app w)))) /\
  Forall stamped log.
Proof.
  intros w G Q w' log n.
  destruct (submit_accepted_idle _ G) as [Idle _].
  pose proof (run_mounted_idle history Idle) as Empty.
  destruct (turn w now during outcome now' Empty G Q) as (M & _).
  fold w' in M.
  destruct (run_log_extends later w') as [suffix H].
  fold log in H. rewrite M, <- app_assoc in H.
  repeat apply conj.
  - rewrite H. subst n. rewrite nth_error_app2 by lia.
    rewrite Nat.sub_diag. reflexivity.
  - rewrite H. subst n. rewrite nth_error_app2 by lia.
    replace (S (Datatypes.length (messages (app w)))
             - Datatypes.length (messages (app w))) with 1 by lia.
    reflexivity.
  - subst log w' w. rewrite <- !run_app. apply run_stamped. constructor.
Qed.

Lemma snapshot_fixed_at_dispatch_witness :
  emotionalState
    (app (run [EvSubmit 1000%Z; EvCalculateResponse 0 (success Scenario.agitated);
               EvSendResponse 0 (success (mkReplyData (JsString.lit "hello")))
                 2000%Z]
            (run [EvInput (JsString.lit "hi")] mounted)))
    = Scenario.agitated /\
  nth_error
    (messages
       (app (run [EvSlider Kvalence 2;
                  EvCalculateResponse 0 (success (mkEmotionalState 4 6))]
            (run [EvSubmit 1000%Z;
                  EvCalculateResponse 0 (success Scenario.agitated);
                  EvSendResponse 0
                    (success (mkReplyData (JsString.lit "hello"))) 2000%Z]
               (run [EvInput (JsString.lit "hi")] mounted))))) 1
    = Some (mkMessage (JsString.lit "hello") false 2000%Z (Some Scenario.calm)).
Proof.
  split; [reflexivity|].
  exact (proj1 (proj2 (snapshot_fixed_at_dispatch
                         [EvInput (JsString.lit "hi")] 1000%Z
                         [EvCalculateResponse 0 (success Scenario.agitated)]
                         (success (mkReplyData (JsString.lit "hello"))) 2000%Z
                         [EvSlider Kvalence 2;
                          EvCalculateResponse 0
                            (success (mkEmotionalState 4 6))]
                         eq_refl eq_refl))).
Defined.

(** ** Blank input *)

(** C10: when the text typed is empty or made of white space only, a
    submission is a complete no-op, busy or not: the handler makes no call at
    all (no entry appended, no request, the busy flag not set) and the
    component and its outstanding requests are as before. *)
Theorem handleSubmit_blank_noop (w : World) (now : Date) :
  forallb JsString.isWhiteSpace (inputMessage (app w)) = true ->
  handleSubmit (app w) now = [] /\ step w (EvSubmit now) = w.
Proof.
  intros Blank. apply step_submit_rejected.
  unfold submitRejected.
  apply JsStringFacts.trim_blank in Blank. rewrite Blank. reflexivity.
Qed.

Lemma handleSubmit_blank_noop_witness :
  isProcessing (app Scenario.blankTyped) = false /\
  step Scenario.blankTyped (EvSubmit 1000%Z) = Scenario.blankTyped /\
  step mounted (EvSubmit 1000%Z) = mounted.
Proof.
  split; [reflexivity|]. split.
  - exact (proj2 (handleSubmit_blank_noop Scenario.blankTyped 1000%Z eq_refl)).
  - exact (proj2 (handleSubmit_blank_noop mounted 1000%Z eq_refl)).
Defined.

(** * Further properties of the handlers *)

(** ** The busy flag *)

Lemma busy_has_one_call (history : list Event) :
  isProcessing (app (run history mounted)) = true ->
  exists req, pendingSend (run history mounted) = [req].
Proof.
  intros Busy.
  destruct (run_serialized history mounted mounted_serialized) as [n [_ L]].
  rewrite Busy in L.
  destruct (pendingSend (run history mounted)) as [|req [|req' rest]];
    try discriminate.
  exists req. reflexivity.
Qed.

(** X1: the [finally] clause of [handleSubmit].  Whenever the busy flag is
    set, the answer to the outstanding reply call, whatever its outcome,
    clears the flag and leaves no reply call outstanding; [handleSubmit] then
    accepts the next text that is not blank. *)
Theorem busy_flag_cleared_by_any_outcome (history : list Event)
    (outcome : FetchOutcome ReplyData) (now : Date) (typed : jsstring) :
  let w := run history mounted in
  isProcessing (app w) = true ->
  forallb JsString.isWhiteSpace typed = false ->
  let w' := step w (EvSendResponse 0 outcome now) in
  isProcessing (app w') = false /\
  pendingSend w' = [] /\
  submitRejected (app (step w' (EvInput typed))) = false.
Proof.
  intros w Busy Visible w'.
  destruct (busy_has_one_call history Busy) as [req P]. fold w in P.
  assert (E : nth_error (pendingSend w) 0 = Some req)
    by (rewrite P; reflexivity).
  destruct (step_send_response w 0 req outcome now E)
    as (_ & I & _ & _ & _ & _ & S & _).
  fold w' in I, S. rewrite P in S.
  repeat apply conj; [exact I | exact S |].
  apply nonblank_accepted; [exact I | exact Visible].
Qed.

Lemma busy_flag_cleared_by_any_outcome_witness :
  isProcessing (app Scenario.submitted) = true /\
  isProcessing
    (app (step Scenario.submitted
            (EvSendResponse 0 (Resolved (mkHttpResponse false None)) 2000%Z)))
    = false.
Proof.
  split; [reflexivity|].
  exact (proj1 (busy_flag_cleared_by_any_outcome
                  [EvInput (JsString.lit "hi"); EvSubmit 1000%Z]
                  (Resolved (mkHttpResponse false None)) 2000%Z
                  (JsString.lit "again") eq_refl eq_refl)).
Defined.

(** ** The form after a failure *)

Lemma step_keeps_backendError (w : World) (ev : Event) :
  backendError (app w) = true ->
  neitherSliderNorSubmit ev = true ->
  backendError (app (step w ev)) = true.
Proof.
  intros B Q.
  destruct ev as [s| |param value|now|i outcome|i outcome now];
    try discriminate Q; try exact B.
  - unfold step. destruct (nth_error (pendingCalc w) i); [|exact B].
    destruct outcome as [|[[|] [data|]]]; try reflexivity. exact B.
  - destruct (nth_error (pendingSend w) i) as [req|] eqn:E.
    + destruct (step_send_response w i req outcome now E)
        as (_ & _ & H & _).
      rewrite H, B. destruct (delivered outcome); reflexivity.
    + unfold step. rewrite E. exact B.
Qed.

Lemma neitherSliderNorSubmit_notSubmit (evs : list Event) :
  forallb neitherSliderNorSubmit evs = true -> forallb notSubmit evs = true.
Proof.
  induction evs as [|ev evs IH]; [reflexivity|]. simpl. intros H.
  apply andb_prop in H. destruct H as [H1 H2].
  rewrite (IH H2), andb_true_r. destruct ev; try reflexivity; discriminate.
Qed.

Lemma run_keeps_backendError (evs : list Event) (w : World) :
  backendError (app w) = true ->
  forallb neitherSliderNorSubmit evs = true ->
  backendError (app (run evs w)) = true.
Proof.
  revert w. induction evs as [|ev evs IH]; intros w B Q; [exact B|].
  simpl in Q. apply andb_prop in Q. destruct Q as [Q1 Q2].
  rewrite run_cons. apply IH; [|exact Q2].
  apply step_keeps_backendError; assumption.
Qed.

(** X2: after a reply call has failed, the text input and the submit button
    are rendered disabled although the busy flag is clear, and they stay
    disabled whatever is typed, toggled or answered by the server, a
    successful recomputation included; the first slider change renders them
    enabled again. *)
Theorem form_disabled_until_slider_change (history : list Event)
    (outcome : FetchOutcome ReplyData) (now : Date) (evs : list Event)
    (param : ParamKey) (value : float) :
  let w := run history mounted in
  isProcessing (app w) = true ->
  Failed outcome ->
  forallb neitherSliderNorSubmit evs = true ->
  let w' := run evs (step w (EvSendResponse 0 outcome now)) in
  isProcessing (app w') = false /\
  controlsDisabled (app w') = true /\
  controlsDisabled (app (step w' (EvSlider param value))) = false.
Proof.
  intros w Busy F Q w'.
  destruct (busy_has_one_call history Busy) as [req P]. fold w in P.
  assert (E : nth_error (pendingSend w) 0 = Some req)
    by (rewrite P; reflexivity).
  destruct (step_send_response w 0 req outcome now E)
    as (_ & I & B & _ & _ & _ & S & _).
  rewrite (failed_not_delivered outcome F) in B. rewrite P in S.
  destruct (run_while_idle evs _ I S (neitherSliderNorSubmit_notSubmit evs Q))
    as (_ & I' & _).
  fold w' in I'.
  pose proof (run_keeps_backendError evs _ B Q) as B'. fold w' in B'.
  repeat apply conj.
  - exact I'.
  - unfold controlsDisabled. rewrite B'. apply orb_true_r.
  - rewrite step_slider. unfold controlsDisabled. cbn. rewrite I'.
    reflexivity.
Qed.

Lemma form_disabled_until_slider_change_witness :
  controlsDisabled
    (app (run [EvInput (JsString.lit "retry");
               EvCalculateResponse 0 (success Scenario.agitated)]
            (step Scenario.submitted (EvSendResponse 0 Rejected 2000%Z))))
    = true.
Proof.
  exact (proj1 (proj2 (form_disabled_until_slider_change
                         [EvInput (JsString.lit "hi"); EvSubmit 1000%Z]
                         Rejected 2000%Z
                         [EvInput (JsString.lit "retry");
                          EvCalculateResponse 0 (success Scenario.agitated)]
                         Kvalence 4 eq_refl NetworkError eq_refl))).
Defined.

(** ** Repeated submissions *)

(** X3: a submission repeated at once (a double click) does nothing more
    than the first one: at most one entry is appended and at most one
    request is sent. *)
Theorem double_submit_is_single_submit (w : World) (now again : Date) :
  step (step w (EvSubmit now)) (EvSubmit again) = step w (EvSubmit now).
Proof.
  destruct (submitRejected (app w)) eqn:G.
  - destruct (step_submit_rejected w now G) as [_ ->].
    exact (proj2 (step_submit_rejected w again G)).
  - apply step_submit_rejected.
    rewrite (step_submit_accepted w now G). reflexivity.
Qed.

(** ** What changes the emotional state and the parameters *)

Lemma step_emotionalState (w : World) (ev : Event) :
  emotionalState (app (step w ev)) = emotionalState (app w) \/
  (exists i req data,
      ev = EvCalculateResponse i (success data) /\
      nth_error (pendingCalc w) i = Some req /\
      emotionalState (app (step w ev)) = data).
Proof.
  destruct ev as [s| |param value|now|i outcome|i outcome now];
    try (left; reflexivity).
  - left. destruct (submitRejected (app w)) eqn:G.
    + destruct (step_submit_rejected w now G) as [_ ->]. reflexivity.
    + rewrite (step_submit_accepted w now G). reflexivity.
  - destruct (nth_error (pendingCalc w) i) as [req|] eqn:E.
    + destruct outcome as [|[[|] [data|]]].
      * left. unfold step. rewrite E. reflexivity.
      * right. exists i, req, data. split; [reflexivity|]. split; [exact E|].
        unfold step. rewrite E. reflexivity.
      * left. unfold step. rewrite E. reflexivity.
      * left. unfold step. rewrite E. reflexivity.
      * left. unfold step. rewrite E. reflexivity.
    + left. unfold step. rewrite E. reflexivity.
  - left. destruct (nth_error (pendingSend w) i) as [req|] eqn:E.
    + destruct (step_send_response w i req outcome now E)
        as (_ & _ & _ & H & _).
      exact H.
    + unfold step. rewrite E. reflexivity.
Qed.

(** X4: the emotional state is written by one thing only, the successful
    answer to an outstanding recomputation, which installs the data
    received; submissions, replies, failures, typing and slider changes leave
    it as it is, so a sequence of events without an answer to a
    recomputation ends in the emotional state it started from. *)
Theorem emotionalState_written_only_by_recomputation (w : World) :
  (forall ev : Event,
      emotionalState (app (step w ev)) = emotionalState (app w) \/
      (exists i req data,
          ev = EvCalculateResponse i (success data) /\
          nth_error (pendingCalc w) i = Some req /\
          emotionalState (app (step w ev)) = data)) /\
  (forall evs : list Event,
      forallb notCalculateResponse evs = true ->
      emotionalState (app (run evs w)) = emotionalState (app w)).
Proof.
  split; [apply step_emotionalState|].
  intros evs. revert w. induction evs as [|ev evs IH]; intros w Q.
  - reflexivity.
  - simpl in Q. apply andb_prop in Q. destruct Q as [Q1 Q2].
    rewrite run_cons, (IH _ Q2).
    destruct (step_emotionalState w ev) as [H | (i & req & data & -> & _)];
      [exact H | discriminate Q1].
Qed.

Lemma emotionalState_written_only_by_recomputation_witness :
  emotionalState
    (app (run [EvSlider Karousal 7; EvInput (JsString.lit "hi");
               EvSubmit 1000%Z; EvSendResponse 0 Rejected 2000%Z] mounted))
    = emotionalState (app mounted).
Proof.
  exact (proj2 (emotionalState_written_only_by_recomputation mounted)
           [EvSlider Karousal 7; EvInput (JsString.lit "hi");
            EvSubmit 1000%Z; EvSendResponse 0 Rejected 2000%Z] eq_refl).
Defined.

Lemma step_parameters (w : World) (ev : Event) :
  notSlider ev = true -> parameters (app (step w ev)) = parameters (app w).
Proof.
  intros Q.
  destruct ev as [s| |param value|now|i outcome|i outcome now];
    try discriminate Q; try reflexivity.
  - destruct (submitRejected (app w)) eqn:G.
    + destruct (step_submit_rejected w now G) as [_ ->]. reflexivity.
    + rewrite (step_submit_accepted w now G). reflexivity.
  - destruct (step_calc_app w i outcome) as (_ & _ & _ & H & _). exact H.
  - destruct (nth_error (pendingSend w) i) as [req|] eqn:E.
    + destruct (step_send_response w i req outcome now E)
        as (_ & _ & _ & _ & _ & H & _).
      exact H.
    + unfold step. rewrite E. reflexivity.
Qed.

(** X5: the parameter record as a store.  Writing a field twice keeps the
    last value; writes to two different fields commute; writing back the
    value a field has gives the same record; and no event other than a
    slider change writes the record: no answer of the server, no submission
    alters the parameters. *)
Theorem parameter_store_laws (p : EmotionalParameters) :
  (forall param first last,
      spreadWith (spreadWith p param first) param last
        = spreadWith p param last) /\
  (forall param other value value',
      param <> other ->
      spreadWith (spreadWith p param value) other value'
        = spreadWith (spreadWith p other value') param value) /\
  (forall param, spreadWith p param (getParameter param p) = p) /\
  (forall (w : World) (evs : list Event),
      forallb notSlider evs = true ->
      parameters (app (run evs w)) = parameters (app w)).
Proof.
  repeat apply conj.
  - intros param first last. destruct param; reflexivity.
  - intros param other value value' D.
    destruct param, other; try reflexivity; congruence.
  - intros param. destruct p, param; reflexivity.
  - intros w evs. revert w. induction evs as [|ev evs IH]; intros w Q.
    + reflexivity.
    + simpl in Q. apply andb_prop in Q. destruct Q as [Q1 Q2].
      rewrite run_cons, (IH _ Q2). apply step_parameters, Q1.
Qed.

Lemma parameter_store_laws_witness :
  spreadWith (spreadWith (parameters initialState) Kvalence 2) Karousal 3
    = spreadWith (spreadWith (parameters initialState) Karousal 3) Kvalence 2.
Proof.
  refine (proj1 (proj2 (parameter_store_laws (parameters initialState)))
            Kvalence Karousal 2%float 3%float _).
  discriminate.
Defined.

(** ** Recomputations answered in order *)

Lemma answers_in_order (f : EmotionalParameters -> EmotionalState)
    (reqs : list CalcRequest) :
  forall (w : World) (last : CalcRequest),
    pendingCalc w = reqs ++ [last] ->
    let w' :=
      run (map (fun req => EvCalculateResponse 0 (success (f (calcBody req))))
             (reqs ++ [last])) w in
    emotionalState (app w') = f (calcBody last) /\
    pendingCalc w' = [] /\
    backendError (app w') = backendError (app w) /\
    parameters (app w') = parameters (app w).
Proof.
  induction reqs as [|req reqs IH]; intros w last P w'; subst w'.
  - unfold run. cbn [List.app map fold_left].
    assert (E : nth_error (pendingCalc w) 0 = Some last)
      by (rewrite P; reflexivity).
    rewrite (step_calc_success w 0 last (f (calcBody last)) E).
    rewrite P. repeat split.
  - cbn [List.app map]. rewrite run_cons.
    assert (E : nth_error (pendingCalc w) 0 = Some req)
      by (rewrite P; reflexivity).
    set (w1 := step w (EvCalculateResponse 0 (success (f (calcBody req))))).
    assert (P1 : pendingCalc w1 = reqs ++ [last]).
    { subst w1. rewrite (step_calc_success w 0 req _ E), P. reflexivity. }
    destruct (IH w1 last P1) as (H1 & H2 & H3 & H4).
    rewrite H1, H2, H3, H4. subst w1.
    rewrite (step_calc_success w 0 req _ E). repeat split.
Qed.

(** X6: when the collaborator computes a function [f] of the parameters it
    is sent and the outstanding recomputations are answered in the order they
    were issued, then after a slider change and these answers the emotional
    state is [f] of the current parameters, no recomputation is outstanding
    and the connectivity flag is clear.  Issuing the same parameters again
    then ends in the same emotional state. *)
Theorem in_order_answers_reach_current_parameters
    (f : EmotionalParameters -> EmotionalState) (w : World)
    (param : ParamKey) (value : float) :
  let issued := step w (EvSlider param value) in
  let settled := run (answersInOrder f issued) issued in
  emotionalState (app settled) = f (parameters (app settled)) /\
  getParameter param (parameters (app settled)) = value /\
  pendingCalc settled = [] /\
  backendError (app settled) = false /\
  (let again := step settled (EvSlider param value) in
   emotionalState (app (run (answersInOrder f again) again))
     = emotionalState (app settled)).
Proof.
  intros issued.
  assert (P : pendingCalc issued
              = pendingCalc w
                ++ [mkCalcRequest (spreadWith (parameters (app w)) param value)])
    by (subst issued; rewrite step_slider; reflexivity).
  pose proof (answers_in_order f (pendingCalc w) issued _ P) as H.
  cbv zeta in H. rewrite <- P in H. fold (answersInOrder f issued) in H.
  intros settled. fold settled in H. destruct H as (H1 & H2 & H3 & H4).
  cbn [calcBody] in H1.
  assert (Par : parameters (app settled)
                = spreadWith (parameters (app w)) param value)
    by (rewrite H4; subst issued; rewrite step_slider; reflexivity).
  repeat apply conj.
  - rewrite H1, Par. reflexivity.
  - rewrite Par. destruct param; reflexivity.
  - exact H2.
  - rewrite H3. subst issued. rewrite step_slider. reflexivity.
  - intros again.
    assert (P' : pendingCalc again
                 = [] ++ [mkCalcRequest
                            (spreadWith (parameters (app settled)) param value)])
      by (subst again; rewrite step_slider, H2; reflexivity).
    pose proof (answers_in_order f [] again _ P') as K.
    cbv zeta in K. rewrite <- P' in K. fold (answersInOrder f again) in K.
    destruct K as (K1 & _). rewrite K1, H1. cbn [calcBody].
    rewrite Par. destruct param; reflexivity.
Qed.

(** ** The console *)

(** X7: a call that fails is reported by exactly one [console.error], under
    the label of its handler and with the error of the first check that
    failed: the rejection of [fetch], else the error thrown for a status that
    is not a success (the body is then not read), else the rejection of
    [json()].  A call that succeeds, and every event that is not an answer,
    writes nothing to the console. *)
Theorem failures_are_logged_once (w : World) :
  (forall i req outcome,
      nth_error (pendingCalc w) i = Some req ->
      console (step w (EvCalculateResponse i outcome))
        = console w
          ++ match reportedError outcome with
             | Some error =>
                 [(JsString.lit "Error calculating emotions:", error)]
             | None => []
             end) /\
  (forall i req outcome now,
      nth_error (pendingSend w) i = Some req ->
      console (step w (EvSendResponse i outcome now))
        = console w
          ++ match reportedError outcome with
             | Some error => [(JsString.lit "Error sending message:", error)]
             | None => []
             end) /\
  (forall ev,
      notCalculateResponse ev && notSendResponse ev = true ->
      console (step w ev) = console w) /\
  (forall (A : Type) (outcome : FetchOutcome A),
      reportedError outcome = None <-> delivered outcome <> None).
Proof.
  repeat apply conj.
  - intros i req outcome E. unfold step. rewrite E.
    destruct outcome as [|[[|] [data|]]]; cbn;
      rewrite ?app_nil_r; reflexivity.
  - intros i req outcome now E. unfold step. rewrite E.
    destruct outcome as [|[[|] [data|]]]; cbn;
      rewrite ?app_nil_r; reflexivity.
  - intros ev Q.
    destruct ev as [s| |param value|now|i outcome|i outcome now];
      try discriminate Q; try reflexivity.
    destruct (submitRejected (app w)) eqn:G.
    + destruct (step_submit_rejected w now G) as [_ ->]. reflexivity.
    + rewrite (step_submit_accepted w now G). reflexivity.
  - intros A outcome.
    destruct outcome as [|[[|] [data|]]]; cbn; split; congruence.
Qed.

Lemma failures_are_logged_once_witness :
  console
    (step mounted
       (EvCalculateResponse 0 (Resolved (mkHttpResponse false None))))
    = [(JsString.lit "Error calculating emotions:", BackendServerError)].
Proof.
  exact (proj1 (failures_are_logged_once mounted) 0
           (mkCalcRequest (parameters initialState))
           (Resolved (mkHttpResponse false None)) eq_refl).
Defined.

(** ** Timestamps *)

Lemma sorted_without (before : list Date) (t : Date) (after : list Date) :
  StronglySorted Z.le (before ++ t :: after) ->
  StronglySorted Z.le (before ++ after).
Proof.
  induction before as [|b before IH]; simpl; intros H.
  - inversion H; assumption.
  - inversion H as [|? ? S F]; subst. constructor.
    + apply IH, S.
    + apply Forall_app in F. destruct F as [F1 F2].
      apply Forall_app. split; [exact F1|].
      inversion F2; assumption.
Qed.

Lemma sorted_prefix (before after : list Date) :
  StronglySorted Z.le (before ++ after) -> StronglySorted Z.le before.
Proof.
  induction after as [|t after IH] using rev_ind.
  - rewrite app_nil_r. trivial.
  - intros H. apply IH. rewrite app_assoc in H.
    apply (sorted_without (before ++ after) t []) in H.
    rewrite app_nil_r in H. exact H.
Qed.

Lemma step_timestamps (w : World) (ev : Event) :
  map timestamp (messages (app (step w ev))) = map timestamp (messages (app w))
  \/ (exists now,
         eventTimes [ev] = [now] /\
         map timestamp (messages (app (step w ev)))
           = map timestamp (messages (app w)) ++ [now]).
Proof.
  destruct ev as [s| |param value|now|i outcome|i outcome now];
    try (left; reflexivity).
  - destruct (submitRejected (app w)) eqn:G.
    + destruct (step_submit_rejected w now G) as [_ ->]. left. reflexivity.
    + rewrite (step_submit_accepted w now G). right. exists now.
      split; [reflexivity|]. cbn. rewrite map_app. reflexivity.
  - destruct (step_calc_app w i outcome) as (M & _). left. rewrite M.
    reflexivity.
  - destruct (nth_error (pendingSend w) i) as [req|] eqn:E.
    + destruct (step_send_response w i req outcome now E) as (M & _).
      right. exists now. split; [reflexivity|].
      rewrite M, map_app. reflexivity.
    + unfold step. rewrite E. left. reflexivity.
Qed.

Lemma run_timestamps (evs : list Event) (w : World) :
  StronglySorted Z.le (map timestamp (messages (app w)) ++ eventTimes evs) ->
  StronglySorted Z.le (map timestamp (messages (app (run evs w)))).
Proof.
  revert w. induction evs as [|ev evs IH]; intros w H.
  - cbn in H. rewrite app_nil_r in H. exact H.
  - rewrite run_cons. apply IH.
    replace (eventTimes (ev :: evs)) with (eventTimes [ev] ++ eventTimes evs)
      in H by (unfold eventTimes; cbn; rewrite app_nil_r; reflexivity).
    destruct (step_timestamps w ev) as [-> | (now & T & ->)].
    + destruct (eventTimes [ev]) as [|t ts] eqn:T; [exact H|].
      assert (ts = []) as ->.
      { destruct ev; cbn in T; try discriminate; injection T as _ <-;
          reflexivity. }
      apply (sorted_without _ t _ H).
    + rewrite T in H. rewrite <- app_assoc. exact H.
Qed.

(** X8: the entries of the log are stamped with the clock read when the
    submission is handled and when the reply call ends; when the clock does
    not run backwards over a sequence of events, the timestamps of the log
    are in non-decreasing order. *)
Theorem log_timestamps_sorted (evs : list Event) :
  StronglySorted Z.le (eventTimes evs) ->
  StronglySorted Z.le (map timestamp (messages (app (run evs mounted)))).
Proof.
  intros H. apply run_timestamps. exact H.
Qed.

Lemma log_timestamps_sorted_witness :
  StronglySorted Z.le
    (map timestamp
       (messages
          (app (run [EvInput (JsString.lit "hi"); EvSubmit 1000%Z;
                     EvSubmit 1200%Z; EvSendResponse 0 Rejected 2000%Z]
                  mounted)))).
Proof.
  apply (log_timestamps_sorted
           [EvInput (JsString.lit "hi"); EvSubmit 1000%Z; EvSubmit 1200%Z;
            EvSendResponse 0 Rejected 2000%Z]).
  cbn. repeat constructor; cbv; discriminate.
Defined.

(** ** The names of the sliders *)

Lemma visible_spaceCapitals (key : jsstring) :
  filter visible (spaceCapitals key) = filter visible key.
Proof.
  induction key as [|c key IH]; [reflexivity|].
  change (spaceCapitals (c :: key))
    with ((if isCapital c then [0x20%N; c] else [c]) ++ spaceCapitals key).
  rewrite filter_app.
  etransitivity; [apply f_equal, IH|].
  destruct (isCapital c); cbn [filter List.app];
    change (visible 0x20%N) with false;
    destruct (visible c); reflexivity.
Qed.

Lemma visible_trimStart (s : jsstring) :
  filter visible (JsString.trimStart s) = filter visible s.
Proof.
  induction s as [|c s IH]; [reflexivity|]. cbn [JsString.trimStart].
  destruct (JsString.isWhiteSpace c) eqn:W; [|reflexivity].
  assert (H : visible c = false) by (unfold visible; rewrite W; reflexivity).
  cbn [filter]. rewrite H. exact IH.
Qed.

Lemma visible_trim (s : jsstring) :
  filter visible (JsString.trim s) = filter visible s.
Proof.
  unfold JsString.trim, JsString.trimEnd.
  rewrite filter_rev, visible_trimStart, filter_rev, rev_involutive.
  apply visible_trimStart.
Qed.

(** X9: the name a slider is shown under is its key with white space added
    only: taking the white space out of the name gives back the key without
    its white space.  Hence two keys that contain no white space and are
    shown under the same name are the same key, and the six sliders have six
    different names. *)
Theorem sliderCaption_keeps_the_key (key : jsstring) :
  filter visible (sliderCaption key) = filter visible key /\
  (forall other : jsstring,
      forallb visible key = true ->
      forallb visible other = true ->
      sliderCaption key = sliderCaption other ->
      key = other) /\
  (forall p : EmotionalParameters,
      NoDup (map (fun e => sliderCaption (fst e)) (entries p))).
Proof.
  assert (V : forall k, filter visible (sliderCaption k) = filter visible k).
  { intros k. unfold sliderCaption.
    rewrite visible_trim. apply visible_spaceCapitals. }
  repeat apply conj.
  - apply V.
  - intros other K O E.
    apply (f_equal (filter visible)) in E. rewrite !V in E.
    rewrite (forallb_filter_id visible key K) in E.
    rewrite (forallb_filter_id visible other O) in E. exact E.
  - intros p. unfold entries. rewrite map_map. cbn.
    repeat (constructor; [cbn; intuition discriminate|]). constructor.
Qed.

Lemma sliderCaption_keeps_the_key_witness :
  sliderCaption (keyName KselectionThreshold)
    = JsString.lit "selection Threshold" /\
  (sliderCaption (keyName KselectionThreshold)
     = sliderCaption (JsString.lit "selectionThreshold") ->
   keyName KselectionThreshold = JsString.lit "selectionThreshold").
Proof.
  split; [reflexivity|].
  exact (proj1 (proj2 (sliderCaption_keeps_the_key
                         (keyName KselectionThreshold)))
           (JsString.lit "selectionThreshold") eq_refl eq_refl).
Defined.

(** ** The classifier on values that are not numbers *)

Lemma SFeqb_refl (x : spec_float) : x <> S754_nan -> SFeqb x x = true.
Proof.
  intros H. destruct x as [s|s| |s m e]; unfold SFeqb, SFcompare.
  - reflexivity.
  - destruct s; reflexivity.
  - congruence.
  - destruct s; rewrite Z.compare_refl; fold (Pos.compare m m);
      rewrite Pos.compare_refl; reflexivity.
Qed.

Lemma is_nan_eq (x : float) : is_nan x = true -> x = nan.
Proof.
  unfold is_nan. rewrite FloatAxioms.eqb_spec. intros H.
  apply Prim2SF_inj. change (Prim2SF nan) with S754_nan.
  destruct (Prim2SF x) eqn:E; try reflexivity;
    rewrite SFeqb_refl in H; try discriminate.
Qed.

(** X10: a channel that is not a number (what the arithmetic makes of a
    field the response lacks) passes no threshold.  When anger is NaN the
    label is decided by sadness alone and is "Very Sad", "Melancholic" or
    "Neutral"; when sadness is NaN the label is decided by anger alone and is
    "Very Agitated", "Frustrated" or "Neutral"; in both cases it is never
    "Calm". *)
Theorem getEmotionalStateDescription_nan (state : EmotionalState) :
  (is_nan (anger state) = true ->
   getEmotionalStateDescription state
     = if gt (normalize (sadness state)) 4 then JsString.lit "Very Sad"
       else if gt (normalize (sadness state)) 3 then JsString.lit "Melancholic"
       else JsString.lit "Neutral") /\
  (is_nan (sadness state) = true ->
   getEmotionalStateDescription state
     = if gt (normalize (anger state)) 4 then JsString.lit "Very Agitated"
       else if gt (normalize (anger state)) 3 then JsString.lit "Frustrated"
       else JsString.lit "Neutral") /\
  (is_nan (anger state) || is_nan (sadness state) = true ->
   getEmotionalStateDescription state <> JsString.lit "Calm").
Proof.
  destruct state as [a s]. cbn [anger sadness].
  assert (A : is_nan a = true ->
              getEmotionalStateDescription (mkEmotionalState a s)
              = if gt (normalize s) 4 then JsString.lit "Very Sad"
                else if gt (normalize s) 3 then JsString.lit "Melancholic"
                else JsString.lit "Neutral").
  { intros H. apply is_nan_eq in H. subst a.
    unfold getEmotionalStateDescription. cbn [anger sadness].
    change (normalize nan) with nan.
    change (gt nan 4) with false. change (gt nan 3) with false.
    change (lt nan 2) with false. cbn [andb].
    destruct (gt (normalize s) 4), (gt (normalize s) 3); reflexivity. }
  assert (S : is_nan s = true ->
              getEmotionalStateDescription (mkEmotionalState a s)
              = if gt (normalize a) 4 then JsString.lit "Very Agitated"
                else if gt (normalize a) 3 then JsString.lit "Frustrated"
                else JsString.lit "Neutral").
  { intros H. apply is_nan_eq in H. subst s.
    unfold getEmotionalStateDescription. cbn [anger sadness].
    change (normalize nan) with nan.
    change (gt nan 4) with false. change (gt nan 3) with false.
    change (lt nan 2) with false. rewrite andb_false_r.
    destruct (gt (normalize a) 4), (gt (normalize a) 3); reflexivity. }
  repeat apply conj; [exact A | exact S |].
  intros H. apply orb_prop in H. destruct H as [H | H].
  - rewrite (A H).
    destruct (gt (normalize s) 4), (gt (normalize s) 3); discriminate.
  - rewrite (S H).
    destruct (gt (normalize a) 4), (gt (normalize a) 3); discriminate.
Qed.

Lemma getEmotionalStateDescription_nan_witness :
  is_nan (anger (mkEmotionalState (0 / 0) 0)) = true /\
  getEmotionalStateDescription (mkEmotionalState (0 / 0) 0)
    = JsString.lit "Neutral".
Proof.
  split; [reflexivity|].
  exact (proj1 (getEmotionalStateDescription_nan (mkEmotionalState (0 / 0) 0))
           eq_refl).
Defined.

(** ** Reading a label back *)

(** X11: the label shown tells which condition held.  Each of the six labels
    is returned exactly when its own condition holds and none of the
    conditions before it does; in particular "Calm" is shown only when both
    normalised channels are below 2, and a sadness label only when the
    normalised anger is not above 3. *)
Theorem label_tells_the_condition (state : EmotionalState) :
  let a := normalize (anger state) in
  let s := normalize (sadness state) in
  let label := getEmotionalStateDescription state in
  (label = JsString.lit "Very Agitated" <-> gt a 4 = true) /\
  (label = JsString.lit "Frustrated" <-> gt a 4 = false /\ gt a 3 = true) /\
  (label = JsString.lit "Very Sad" <->
   gt a 4 = false /\ gt a 3 = false /\ gt s 4 = true) /\
  (label = JsString.lit "Melancholic" <->
   gt a 4 = false /\ gt a 3 = false /\ gt s 4 = false /\ gt s 3 = true) /\
  (label = JsString.lit "Calm" <->
   gt a 4 = false /\ gt a 3 = false /\ gt s 4 = false /\ gt s 3 = false /\
   lt a 2 = true /\ lt s 2 = true) /\
  (label = JsString.lit "Neutral" <->
   gt a 4 = false /\ gt a 3 = false /\ gt s 4 = false /\ gt s 3 = false /\
   lt a 2 && lt s 2 = false).
Proof.
  intros a s label. subst label. unfold getEmotionalStateDescription.
  fold a s.
  destruct (gt a 4), (gt a 3), (gt s 4), (gt s 3), (lt a 2), (lt s 2);
    cbn [andb];
    repeat apply conj; intros;
    repeat match goal with K : _ /\ _ |- _ => destruct K end;
    repeat apply conj; try reflexivity; try discriminate;
    match goal with
    | K : JsString.lit _ = JsString.lit _ |- _ =>
        vm_compute in K; discriminate K
    end.
Qed.

(** ** What the render shows *)




(** ** The text of a submission *)

Lemma visible_not_blank (s : jsstring) :
  existsb visible s = true -> forallb JsString.isWhiteSpace s = false.
Proof.
  induction s as [|c s IH]; [discriminate|]. cbn. unfold visible at 1.
  destruct (JsString.isWhiteSpace c); cbn; [exact IH | reflexivity].
Qed.

(** X13: [trim] serves the guard only.  When the busy flag is clear and the
    text typed has at least one visible code unit, the submission is
    accepted, whatever the connectivity flag; the text logged and the text
    posted to the reply collaborator are the text as typed, surrounding
    white space included, the parameters posted are the current ones, and
    the input box is emptied. *)
Theorem submission_keeps_text_as_typed (w : World) (now : Date) :
  isProcessing (app w) = false ->
  existsb visible (inputMessage (app w)) = true ->
  let w' := step w (EvSubmit now) in
  messages (app w')
    = messages (app w) ++ [mkMessage (inputMessage (app w)) true now None] /\
  map sendBody (pendingSend w')
    = map sendBody (pendingSend w)
      ++ [mkSendBody (inputMessage (app w)) (parameters (app w))] /\
  inputMessage (app w') = JsString.empty /\
  isProcessing (app w') = true.
Proof.
  intros Idle V w'. subst w'.
  rewrite (step_submit_accepted w now
             (nonblank_accepted (app w) Idle (visible_not_blank _ V))).
  cbn. rewrite map_app. repeat split.
Qed.

Lemma submission_keeps_text_as_typed_witness :
  JsString.trim (JsString.lit "  hi ") = JsString.lit "hi" /\
  messages
    (app (step (run [EvInput (JsString.lit "  hi ")] Scenario.offline)
            (EvSubmit 1000%Z)))
    = [mkMessage (JsString.lit "  hi ") true 1000%Z None].
Proof.
  split; [reflexivity|].
  exact (proj1 (submission_keeps_text_as_typed
                  (run [EvInput (JsString.lit "  hi ")] Scenario.offline)
                  1000%Z eq_refl eq_refl)).
Defined.
